(** * SafetyDashboard: the calendar model, auto-rollover, streak, persisted
    state reconciliation and the formula evaluator

    A shallow embedding of the state layer of
    [src/app/components/SafetyDashboard.tsx] and the properties the
    specification states about it.

    Conventions of the embedding.
    - A JavaScript [number] that the code uses as an integer (a year, a month
      index, a day of the month, an array index, a time value in
      milliseconds) is a [Z]; a number that may be [NaN] is an [option Z]
      with [None] for [NaN].  Numbers that are computed with (the formula
      evaluator, zoom factors, values read from JSON) are IEEE binary64
      values, [spec_float] at precision 53.
    - [null] in [DayStatus] is [None].
    - Arrays are lists; [a[i]] is stdpp's lookup, [undefined] is [None].
    - A function that returns either the object it was given or a fresh
      copy returns a [Returned]: the tag records which reference comes back.
    - The host: the local time zone is a fixed offset from UTC (no daylight
      saving transitions); the global scope and the clock are explicit. *)

From Stdlib Require Import ZArith Lia List Bool String Ascii SpecFloat.
From stdpp Require Import base list.

Local Open Scope Z_scope.
Set Warnings "-register-all".

(* ================================================================== *)
(** * Part I.  Definitions                                              *)
(* ================================================================== *)

(* ------------------------------------------------------------------ *)
(** ** Dates: ECMAScript's time values (ECMA-262, 21.4.1)               *)
(* ------------------------------------------------------------------ *)

(** The host's time zone: the local time zone adjustment in milliseconds,
    constant over time and less than a day. *)
Class TimeZone := {
  LocalTZA : Z;
  LocalTZA_bound : -86400000 < LocalTZA < 86400000
}.

Definition msPerDay : Z := 86400000.
Definition msPerHour : Z := 3600000.
Definition msPerMinute : Z := 60000.

Definition Day (t : Z) : Z := t / msPerDay.
Definition TimeWithinDay (t : Z) : Z := t mod msPerDay.

Definition isLeapYear (y : Z) : bool :=
  (y mod 4 =? 0) && (negb (y mod 100 =? 0) || (y mod 400 =? 0)).

Definition DaysInYear (y : Z) : Z := if isLeapYear y then 366 else 365.

Definition DayFromYear (y : Z) : Z :=
  365 * (y - 1970) + (y - 1969) / 4 - (y - 1901) / 100 + (y - 1601) / 400.

(** [YearFromTime]: the largest year whose first day is not after the day.
    Computed by splitting the days since 1601-01-01 into 400-year, 100-year
    and 4-year cycles; [YearFromDay_spec] shows it is that year. *)
Definition YearFromDay (d : Z) : Z :=
  let n := d + 134774 in
  let era := n / 146097 in
  let r := n mod 146097 in
  let c := Z.min 3 (r / 36524) in
  let r2 := r - c * 36524 in
  let q := Z.min 24 (r2 / 1461) in
  let r3 := r2 - q * 1461 in
  let a := Z.min 3 (r3 / 365) in
  1601 + 400 * era + 100 * c + 4 * q + a.

Definition YearFromTime (t : Z) : Z := YearFromDay (Day t).

Definition InLeapYear (t : Z) : Z :=
  if isLeapYear (YearFromTime t) then 1 else 0.

Definition DayWithinYear (t : Z) : Z := Day t - DayFromYear (YearFromTime t).

(** The table of 21.4.1.11: the month of a day number within its year. *)
Definition monthOfYearDay (leap d : Z) : Z :=
  if d <? 31 then 0
  else if d <? 59 + leap then 1
  else if d <? 90 + leap then 2
  else if d <? 120 + leap then 3
  else if d <? 151 + leap then 4
  else if d <? 181 + leap then 5
  else if d <? 212 + leap then 6
  else if d <? 243 + leap then 7
  else if d <? 273 + leap then 8
  else if d <? 304 + leap then 9
  else if d <? 334 + leap then 10
  else 11.

(** The day number within the year on which month [mn] starts. *)
Definition monthStart (leap mn : Z) : Z :=
  match mn with
  | 0 => 0
  | 1 => 31
  | 2 => 59 + leap
  | 3 => 90 + leap
  | 4 => 120 + leap
  | 5 => 151 + leap
  | 6 => 181 + leap
  | 7 => 212 + leap
  | 8 => 243 + leap
  | 9 => 273 + leap
  | 10 => 304 + leap
  | _ => 334 + leap
  end.

Definition MonthFromTime (t : Z) : Z :=
  monthOfYearDay (InLeapYear t) (DayWithinYear t).

(** The table of 21.4.1.12: the day of the month, 1-based. *)
Definition DateFromTime (t : Z) : Z :=
  DayWithinYear t - monthStart (InLeapYear t) (MonthFromTime t) + 1.

Definition HourFromTime (t : Z) : Z := (t / msPerHour) mod 24.
Definition MinFromTime (t : Z) : Z := (t / msPerMinute) mod 60.

(** [MakeDay]: the day number of the [date]-th day of month [month] of
    [year]; months outside 0..11 carry into the year, days outside the
    month carry into the neighbouring months. *)
Definition MakeDay (year month date : Z) : Z :=
  let ym := year + month / 12 in
  let mn := month mod 12 in
  DayFromYear ym + monthStart (if isLeapYear ym then 1 else 0) mn + date - 1.

Definition MakeDate (day time : Z) : Z := day * msPerDay + time.

(** A number that may be [NaN]. *)
Definition JSInt := option Z.

(** [TimeClip]: time values further than 8.64e15 ms from the epoch are [NaN]. *)
Definition TimeClip (t : Z) : JSInt :=
  if Z.abs t <=? 8640000000000000 then Some t else None.

(** A [Date] object, by its time value ([None]: an invalid date). *)
Definition JSDate := JSInt.

Section LocalTime.
Context `{TimeZone}.

Definition LocalTime (t : Z) : Z := t + LocalTZA.
Definition UTC (t : Z) : Z := t - LocalTZA.

(** [new Date(year, month, date)]: local midnight of that day; years
    0..99 mean 1900..1999. *)
Definition newDate (year month date : Z) : JSDate :=
  let yr := if (0 <=? year) && (year <=? 99) then 1900 + year else year in
  TimeClip (UTC (MakeDate (MakeDay yr month date) 0)).

Definition getFullYear (d : JSDate) : JSInt :=
  option_map (fun t => YearFromTime (LocalTime t)) d.
Definition getMonth (d : JSDate) : JSInt :=
  option_map (fun t => MonthFromTime (LocalTime t)) d.
Definition getDate (d : JSDate) : JSInt :=
  option_map (fun t => DateFromTime (LocalTime t)) d.
Definition getHours (d : JSDate) : JSInt :=
  option_map (fun t => HourFromTime (LocalTime t)) d.
Definition getMinutes (d : JSDate) : JSInt :=
  option_map (fun t => MinFromTime (LocalTime t)) d.

(** [d.setDate(date)], the new value of [d]. *)
Definition setDate (d : JSDate) (date : JSInt) : JSDate :=
  match d, date with
  | Some tv, Some dt =>
      let t := LocalTime tv in
      TimeClip (UTC (MakeDate (MakeDay (YearFromTime t) (MonthFromTime t) dt)
                              (TimeWithinDay t)))
  | _, _ => None
  end.
End LocalTime.

(** Comparisons of numbers that may be [NaN]: false whenever one is. *)
Definition num_lt (a b : JSInt) : bool :=
  match a, b with Some x, Some y => x <? y | _, _ => false end.
Definition num_gt (a b : JSInt) : bool := num_lt b a.
Definition num_ge (a b : JSInt) : bool :=
  match a, b with Some x, Some y => y <=? x | _, _ => false end.
(** [a === b] on numbers. *)
Definition num_eq (a b : JSInt) : bool :=
  match a, b with Some x, Some y => x =? y | _, _ => false end.
Definition num_sub (a b : JSInt) : JSInt :=
  match a, b with Some x, Some y => Some (x - y) | _, _ => None end.
Definition num_ne (a b : JSInt) : bool := negb (num_eq a b).

(** [new Date(y, m, d)] on numbers that may be [NaN]. *)
Definition newDateN `{TimeZone} (y m d : JSInt) : JSDate :=
  match y, m, d with
  | Some y, Some m, Some d => newDate y m d
  | _, _, _ => None
  end.

(** [a[i]] for a number [i]: [undefined] outside the array. *)
Definition js_index {A : Type} (a : list A) (i : Z) : option A :=
  if 0 <=? i then a !! Z.to_nat i else None.

(** The length [Array.from({length: n}, ...)] gives: 0 for [NaN] and for
    negative numbers. *)
Definition arrayLength (n : JSInt) : nat :=
  match n with Some k => Z.to_nat k | None => O end.

(** What a function hands back when it returns either its argument or a
    freshly built object: [ReturnPrev] is the argument's own reference. *)
Inductive Returned (A : Type) : Type :=
  | ReturnPrev
  | ReturnNext (next : A).
Arguments ReturnPrev {A}.
Arguments ReturnNext {A} next.

Definition returned {A : Type} (prev : A) (r : Returned A) : A :=
  match r with ReturnPrev => prev | ReturnNext next => next end.

(* ------------------------------------------------------------------ *)
(** ** The calendar model                                               *)
(* ------------------------------------------------------------------ *)

Inductive Status : Type := safe | near_miss | accident.

(** [type DayStatus = 'safe' | 'near_miss' | 'accident' | null] *)
Definition DayStatus := option Status.

Record DailyStatistic := { day : Z; status : DayStatus }.
Record MonthlyData := { month : Z; year : Z; days : list DailyStatistic }.

Definition AUTO_SAFE_HOUR : Z := 16.

Definition nextDayStatus (status : DayStatus) : DayStatus :=
  match status with
  | None => Some safe
  | Some safe => Some near_miss
  | Some near_miss => Some accident
  | Some accident => None
  end.

Section Calendar.
Context `{TimeZone}.

Definition createYearData (year : Z) : list MonthlyData :=
  map (fun m : nat =>
         {| month := Z.of_nat m;
            year := year;
            days := map (fun i : nat => {| day := Z.of_nat i + 1; status := None |})
                        (seq 0 (arrayLength (getDate (newDate year (Z.of_nat m + 1) 0)))) |})
      (seq 0 12).

(** [{ ...dd }] and [{ ...mm, days: mm.days.map(...) }] *)
Definition copyDay (dd : DailyStatistic) : DailyStatistic :=
  {| day := day dd; status := status dd |}.
Definition copyMonth (mm : MonthlyData) : MonthlyData :=
  {| month := month mm; year := year mm; days := map copyDay (days mm) |}.
Definition deepCopy (prev : list MonthlyData) : list MonthlyData :=
  map copyMonth prev.

(** [c[m].days[i].status = s] *)
Definition assignStatus (s : DayStatus) (dd : DailyStatistic) : DailyStatistic :=
  {| day := day dd; status := s |}.
Definition setStatusAt (m i : nat) (s : DayStatus) (c : list MonthlyData)
  : list MonthlyData :=
  alter (fun mm => {| month := month mm; year := year mm;
                      days := alter (assignStatus s) i (days mm) |}) m c.

(** *** applyAutoSafe *)

(** The two variables the loops of [applyAutoSafe] update. *)
Record AutoSafeVars := { next : option (list MonthlyData); changed : bool }.

Definition ensureNext (prev : list MonthlyData) (v : AutoSafeVars) : list MonthlyData :=
  match next v with
  | Some n => n
  | None => deepCopy prev
  end.

(** [const tgt = ensureNext()[m].days[i]; tgt.status = 'safe'; changed = true] *)
Definition markSafe (prev : list MonthlyData) (m i : nat) (v : AutoSafeVars)
  : AutoSafeVars :=
  {| next := Some (setStatusAt m i (Some safe) (ensureNext prev v));
     changed := true |}.

Definition afterCutoff (now : JSDate) : bool :=
  num_gt (getHours now) (Some AUTO_SAFE_HOUR)
  || (num_eq (getHours now) (Some AUTO_SAFE_HOUR) && num_ge (getMinutes now) (Some 0)).

(** The body of the inner loop for the day [dd] at index [i] of month [m]. *)
Definition autoSafeDay (prev : list MonthlyData) (now : JSDate) (year : Z)
    (m i : nat) (dd : DailyStatistic) (v : AutoSafeVars) : AutoSafeVars :=
  let todayStart := newDateN (Some year) (getMonth now) (getDate now) in
  match status dd with
  | Some _ => v
  | None =>
      let dt := newDate year (Z.of_nat m) (day dd) in
      if num_lt dt todayStart then markSafe prev m i v
      else if afterCutoff now
              && num_eq (Some (Z.of_nat m)) (getMonth now)
              && num_eq (Some (day dd)) (getDate now)
           then markSafe prev m i v
           else v
  end.

(** [for (let i = 0; i < month.days.length; i++)], from index [i] on. *)
Fixpoint autoSafeDays (prev : list MonthlyData) (now : JSDate) (year : Z)
    (m i : nat) (dds : list DailyStatistic) (v : AutoSafeVars) : AutoSafeVars :=
  match dds with
  | [] => v
  | dd :: rest =>
      autoSafeDays prev now year m (S i) rest (autoSafeDay prev now year m i dd v)
  end.

(** [for (let m = 0; m < 12; m++)], over the month indices [ms]. *)
Fixpoint autoSafeMonths (prev : list MonthlyData) (now : JSDate) (year : Z)
    (ms : list nat) (v : AutoSafeVars) : AutoSafeVars :=
  match ms with
  | [] => v
  | m :: rest =>
      autoSafeMonths prev now year rest
        match prev !! m with
        | None => v
        | Some month => autoSafeDays prev now year m 0 (days month) v
        end
  end.

Definition applyAutoSafe_ref (prev : list MonthlyData) (now : JSDate) (year : Z)
  : Returned (list MonthlyData) :=
  if num_ne (getFullYear now) (Some year) then ReturnPrev
  else
    let v := autoSafeMonths prev now year (seq 0 12)
               {| next := None; changed := false |} in
    match changed v, next v with
    | true, Some n => ReturnNext n
    | _, _ => ReturnPrev
    end.

Definition applyAutoSafe (prev : list MonthlyData) (now : JSDate) (year : Z)
  : list MonthlyData :=
  returned prev (applyAutoSafe_ref prev now year).

(** *** safetyStreak *)

(** [monthlyData[m]?.days?.[d - 1]?.status ?? null] *)
Definition statusOf (monthlyData : list MonthlyData) (m d : JSInt) : DayStatus :=
  match m, d with
  | Some m, Some d =>
      match js_index monthlyData m with
      | Some mm =>
          match js_index (days mm) (d - 1) with
          | Some dd => status dd
          | None => None
          end
      | None => None
      end
  | _, _ => None
  end.

(** [st === 'safe' || st === 'near_miss'] *)
Definition countsForStreak (st : DayStatus) : bool :=
  match st with
  | Some safe | Some near_miss => true
  | _ => false
  end.

(** The loop [for (let dt = new Date(end); ; )]; [fuel] bounds the number
    of iterations and [None] means it ran out. *)
Fixpoint streakLoop (fuel : nat) (monthlyData : list MonthlyData) (y : JSInt)
    (dt : JSDate) (streak : Z) : option Z :=
  match fuel with
  | O => None
  | S fuel' =>
      let st := statusOf monthlyData (getMonth dt) (getDate dt) in
      if countsForStreak st then
        let dt' := setDate dt (num_sub (getDate dt) (Some 1)) in
        if num_ne (getFullYear dt') y then Some (streak + 1)
        else streakLoop fuel' monthlyData y dt' (streak + 1)
      else Some streak
  end.

Definition safetyStreak_fuel (fuel : nat) (monthlyData : list MonthlyData)
    (nowDt : JSDate) (currentYear : Z) : option Z :=
  let y := getFullYear nowDt in
  if num_ne y (Some currentYear) then Some 0
  else
    let todayM := getMonth nowDt in
    let todayD := getDate nowDt in
    let todayStatus := statusOf monthlyData todayM todayD in
    let end_ := if countsForStreak todayStatus
                then newDateN y todayM todayD
                else newDateN y todayM (num_sub todayD (Some 1)) in
    if num_ne (getFullYear end_) y then Some 0
    else streakLoop fuel monthlyData y end_ 0.

(** A year has at most 366 days, so 367 iterations are never used up
    ([safetyStreak_fuel_enough]). *)
Definition safetyStreak (monthlyData : list MonthlyData) (nowDt : JSDate)
    (currentYear : Z) : option Z :=
  safetyStreak_fuel 367 monthlyData nowDt currentYear.

(** *** setDayStatus and cycleDayStatus

    Both close over [displayMonth]; [cycleDayStatus] reads the current
    status from [monthlyData], the state of the last render, and the
    updater it queues receives [prev], the state at the time it runs. *)
Definition setDayStatus_ref (displayMonth day : Z) (status : DayStatus)
    (prev : list MonthlyData) : Returned (list MonthlyData) :=
  let next := deepCopy prev in
  match js_index next displayMonth with
  | None => ReturnPrev
  | Some month =>
      match js_index (days month) (day - 1) with
      | None => ReturnPrev
      | Some target =>
          ReturnNext (setStatusAt (Z.to_nat displayMonth) (Z.to_nat (day - 1))
                        status next)
      end
  end.

Definition setDayStatus (displayMonth day : Z) (status : DayStatus)
    (prev : list MonthlyData) : list MonthlyData :=
  returned prev (setDayStatus_ref displayMonth day status prev).

Definition cycleDayStatus (displayMonth : Z) (monthlyData : list MonthlyData)
    (day : Z) (prev : list MonthlyData) : list MonthlyData :=
  let current := statusOf monthlyData (Some displayMonth) (Some day) in
  setDayStatus displayMonth day (nextDayStatus current) prev.

(** A click on a day cell once the previous click has been rendered. *)
Definition clickDay (displayMonth day : Z) (monthlyData : list MonthlyData)
  : list MonthlyData :=
  cycleDayStatus displayMonth monthlyData day monthlyData.
End Calendar.

(* ------------------------------------------------------------------ *)
(** ** Strings, numbers and JSON values                                 *)
(* ------------------------------------------------------------------ *)

(** A JavaScript string: its UTF-16 code units. *)
Definition jsstring := list N.

(** The code units of a source literal, which this file holds in UTF-8. *)
Fixpoint utf16_of_utf8 (bs : list N) : jsstring :=
  match bs with
  | [] => []
  | b :: rest =>
      if (b <? 128)%N then b :: utf16_of_utf8 rest
      else if (b <? 224)%N then
        match rest with
        | b2 :: r => ((b mod 32) * 64 + b2 mod 64)%N :: utf16_of_utf8 r
        | _ => []
        end
      else if (b <? 240)%N then
        match rest with
        | b2 :: b3 :: r =>
            ((b mod 16) * 4096 + (b2 mod 64) * 64 + b3 mod 64)%N :: utf16_of_utf8 r
        | _ => []
        end
      else
        match rest with
        | b2 :: b3 :: b4 :: r =>
            let cp := ((b mod 8) * 262144 + (b2 mod 64) * 4096
                       + (b3 mod 64) * 64 + b4 mod 64)%N in
            let c := (cp - 65536)%N in
            (55296 + c / 1024)%N :: (56320 + c mod 1024)%N :: utf16_of_utf8 r
        | _ => []
        end
  end.

Definition js (s : string) : jsstring :=
  utf16_of_utf8 (map N_of_ascii (list_ascii_of_string s)).

Definition jsstring_eqb (a b : jsstring) : bool := bool_decide (a = b).

(** A JavaScript number: an IEEE 754 binary64 value. *)
Definition number := spec_float.

(** The number an integer denotes (rounded to nearest, ties to even). *)
Definition Z2F (z : Z) : number := binary_normalize 53 1024 z 0 false.

Definition NaN : number := S754_nan.

Definition isNaN (x : number) : bool :=
  match x with S754_nan => true | _ => false end.

(** [Number.isFinite] *)
Definition isFinite (x : number) : bool :=
  match x with
  | S754_zero _ | S754_finite _ _ _ => true
  | _ => false
  end.

(** [Math.max(a, b)] and [Math.min(a, b)]: [NaN] if either is, and
    [+0] above [-0]. *)
Definition Math_max (a b : number) : number :=
  match SFcompare a b with
  | None => NaN
  | Some Lt => b
  | Some Gt => a
  | Some Eq => match a with S754_zero true => b | _ => a end
  end.
Definition Math_min (a b : number) : number :=
  match SFcompare a b with
  | None => NaN
  | Some Lt => a
  | Some Gt => b
  | Some Eq => match a with S754_zero false => b | _ => a end
  end.

Definition clamp (n min max : number) : number :=
  Math_min max (Math_max min n).

#[global] Instance number_eq_dec : EqDecision spec_float.
Proof. solve_decision. Defined.

(** The integer a number is, when it is one. *)
Definition integerValue (x : number) : option Z :=
  let z := match x with
           | S754_zero _ => 0
           | S754_finite s m e =>
               SpecFloat.cond_Zopp s
                 (match e with
                  | Zneg p => Zpos m / Z.pow_pos 2 p
                  | _ => Zpos m * 2 ^ e
                  end)
           | _ => 0
           end in
  if bool_decide (Z2F z = x) then Some z else None.

(** What [JSON.parse] yields. An object is the list of its properties, in
    order; property names are distinct. *)
Inductive json : Type :=
  | JNull
  | JBool (b : bool)
  | JNum (n : number)
  | JStr (s : jsstring)
  | JArr (items : list json)
  | JObj (props : list (jsstring * json)).

(** A value that may be [undefined]. *)
Definition jsvalue := option json.

Fixpoint assoc {A : Type} (k : jsstring) (props : list (jsstring * A)) : option A :=
  match props with
  | [] => None
  | (k', v) :: rest => if jsstring_eqb k k' then Some v else assoc k rest
  end.

(** How an evaluation ends: with a value or with a thrown error. *)
Inductive Completion (A : Type) : Type :=
  | Normal (a : A)
  | Throw.
Arguments Normal {A} a.
Arguments Throw {A}.

(** [v.k] for a property name [k] other than [length] and array indices
    (the code reads none of those this way): a [TypeError] on [null] and
    [undefined], [undefined] on values that are not objects. *)
Definition getProp (v : jsvalue) (k : jsstring) : Completion jsvalue :=
  match v with
  | None | Some JNull => Throw
  | Some (JObj props) => Normal (assoc k props)
  | Some _ => Normal None
  end.

(** The same where the code has made sure that [v] is not [null]. *)
Definition field (v : json) (k : jsstring) : jsvalue :=
  match v with
  | JObj props => assoc k props
  | _ => None
  end.

Definition truthy (v : jsvalue) : bool :=
  match v with
  | None | Some JNull => false
  | Some (JBool b) => b
  | Some (JNum n) =>
      match n with S754_zero _ | S754_nan => false | _ => true end
  | Some (JStr s) => negb (bool_decide (s = []))
  | Some (JArr _) | Some (JObj _) => true
  end.

(** [Array.isArray(v)], with the elements when it is one. *)
Definition asArray (v : jsvalue) : option (list json) :=
  match v with Some (JArr items) => Some items | _ => None end.

(** [typeof v === 'string'], with the string. *)
Definition asString (v : jsvalue) : option jsstring :=
  match v with Some (JStr s) => Some s | _ => None end.

(** [typeof v === 'number'], with the number. *)
Definition asNumber (v : jsvalue) : option number :=
  match v with Some (JNum n) => Some n | _ => None end.

(** [v && typeof v === 'object'] *)
Definition isObject (v : jsvalue) : bool :=
  match v with Some (JArr _) | Some (JObj _) => true | _ => false end.

(** [v === z] for an integer [z]. *)
Definition strictEqualsInt (v : jsvalue) (z : Z) : bool :=
  match v with Some (JNum n) => SFeqb n (Z2F z) | _ => false end.

(** [data.every((m, idx) => p(m, idx))], from index [idx] on. *)
Fixpoint every (p : json -> nat -> bool) (idx : nat) (data : list json) : bool :=
  match data with
  | [] => true
  | m :: rest => p m idx && every p (S idx) rest
  end.

Section Validation.
Context `{TimeZone}.

Definition isValidMonth (year : Z) (m : json) (idx : nat) : bool :=
  truthy (Some m)
  && strictEqualsInt (field m (js "month")) (Z.of_nat idx)
  && strictEqualsInt (field m (js "year")) year
  && match asArray (field m (js "days")) with
     | Some ds =>
         num_eq (Some (Z.of_nat (length ds)))
                (getDate (newDate year (Z.of_nat idx + 1) 0))
     | None => false
     end.

Definition isValidMonthlyData (data : jsvalue) (year : Z) : bool :=
  match asArray data with
  | Some ms => (length ms =? 12)%nat && every (isValidMonth year) 0 ms
  | None => false
  end.
End Validation.

(** The JSON form of a calendar, as [JSON.stringify] and [JSON.parse]
    carry it: property order is that of [createYearData]. *)
Definition statusToJson (s : DayStatus) : json :=
  match s with
  | None => JNull
  | Some safe => JStr (js "safe")
  | Some near_miss => JStr (js "near_miss")
  | Some accident => JStr (js "accident")
  end.

Definition dayToJson (dd : DailyStatistic) : json :=
  JObj [(js "day", JNum (Z2F (day dd))); (js "status", statusToJson (status dd))].

Definition monthToJson (mm : MonthlyData) : json :=
  JObj [(js "month", JNum (Z2F (month mm)));
        (js "year", JNum (Z2F (year mm)));
        (js "days", JArr (map dayToJson (days mm)))].

Definition calendarToJson (c : list MonthlyData) : json :=
  JArr (map monthToJson c).

(** The calendar a JSON value is, when it is the JSON form of one: the
    values on which the declared type [MonthlyData[]] tells the truth. *)
Definition asInt (v : json) : option Z :=
  match v with JNum n => integerValue n | _ => None end.

Definition asStatus (v : json) : option DayStatus :=
  match v with
  | JNull => Some None
  | JStr s =>
      if jsstring_eqb s (js "safe") then Some (Some safe)
      else if jsstring_eqb s (js "near_miss") then Some (Some near_miss)
      else if jsstring_eqb s (js "accident") then Some (Some accident)
      else None
  | _ => None
  end.

Definition asDay (v : json) : option DailyStatistic :=
  match v with
  | JObj [(k1, d); (k2, s)] =>
      if jsstring_eqb k1 (js "day") && jsstring_eqb k2 (js "status") then
        match asInt d, asStatus s with
        | Some d, Some s => Some {| day := d; status := s |}
        | _, _ => None
        end
      else None
  | _ => None
  end.

Fixpoint allSome {A : Type} (l : list (option A)) : option (list A) :=
  match l with
  | [] => Some []
  | Some a :: rest => option_map (cons a) (allSome rest)
  | None :: _ => None
  end.

Definition asMonth (v : json) : option MonthlyData :=
  match v with
  | JObj [(k1, m); (k2, y); (k3, JArr ds)] =>
      if jsstring_eqb k1 (js "month") && jsstring_eqb k2 (js "year")
         && jsstring_eqb k3 (js "days") then
        match asInt m, asInt y, allSome (map asDay ds) with
        | Some m, Some y, Some ds => Some {| month := m; year := y; days := ds |}
        | _, _, _ => None
        end
      else None
  | _ => None
  end.

Definition asMonthlyData (v : json) : option (list MonthlyData) :=
  match v with
  | JArr ms => allSome (map asMonth ms)
  | _ => None
  end.

(* ------------------------------------------------------------------ *)
(** ** Loading the persisted state                                      *)
(* ------------------------------------------------------------------ *)

(** The parts of the JavaScript runtime that the load path calls and whose
    results it only stores or tests, and what [applyAutoSafe] does when it
    is handed a value that passed [isValidMonthlyData] and is not the JSON
    form of a [MonthlyData[]] (the type guard does not look inside [days]).
    Every property below holds whatever these are. *)
Class JSRuntime := {
  (** [Number(s)] for a string [s] *)
  StringToNumber : jsstring -> number;
  (** [Number(v)] for an array or an object [v]: conversion to a primitive
      (which throws a [TypeError] when there is none), then to a number *)
  ObjectToNumber : json -> Completion number;
  (** [{ ...defaults, ...v }] for an array or an object [v] *)
  objectSpread : list (jsstring * json) -> json -> json;
  (** [d.toISOString()] *)
  toISOString : JSDate -> jsstring;
  applyAutoSafe_untyped : json -> JSDate -> Z -> Completion json
}.

Definition DEFAULT_ANNOUNCEMENTS : list json :=
  [ JObj [(js "id", JStr (js "1"));
          (js "text", JStr (js "PPE Audit ประจำสัปดาห์ทุกวันพฤหัสบดี เวลา 09:00 น."))];
    JObj [(js "id", JStr (js "2"));
          (js "text", JStr (js "Emergency Drill ไตรมาสนี้กำหนดวันที่ 28 มีนาคม 2026"))] ].

Definition metric (id label value unit : string) : json :=
  JObj [(js "id", JStr (js id)); (js "label", JStr (js label));
        (js "value", JStr (js value)); (js "unit", JStr (js unit))].

Definition DEFAULT_METRICS : list json :=
  [ metric "m1" "First Aid" "0" "case";
    metric "m2" "Non-Absent" "0" "case";
    metric "m3" "Absent" "0" "case";
    metric "m4" "Fire" "0" "case";
    metric "m5" "IFR" "0" "";
    metric "m6" "ISR" "1.2" "" ].

Definition DEFAULT_POSTER_TOP : jsstring := js "/company-policy-poster.png".
Definition DEFAULT_POSTER_BOTTOM : jsstring := js "/safety-culture.png".
Definition DEFAULT_POLICY_IMAGES : list json := [JStr (js "/policy-vp.png")].

Definition DEFAULT_TARGET_VARS : list (jsstring * json) :=
  [ (js "manpower", JNum (Z2F 675));
    (js "daysPerWeek", JNum (Z2F 6));
    (js "hoursPerDay", JNum (Z2F 10));
    (js "workingDaysYear", JNum (Z2F 250));
    (js "workingDaysSoFar", JNum (Z2F 0)) ].

Definition DEFAULT_TARGET_FORMULAS : list (jsstring * json) :=
  [ (js "totalExpr",
     JStr (js "manpower * daysPerWeek * hoursPerDay * workingDaysYear"));
    (js "toDateExpr",
     JStr (js "manpower * daysPerWeek * hoursPerDay * workingDaysSoFar")) ].

(** The state the load path writes, one field per [useState]. *)
Record Dashboard := {
  monthlyData : json;
  announcements : list json;
  posterTop : option jsstring;
  posterBottom : option jsstring;
  posterTopZoom : number;
  posterBottomZoom : number;
  policyImages : list json;
  policyZoom : number;
  targetVars : json;
  targetFormulas : json;
  bestRecord : number;
  lossTimeAccidents : number;
  lastUpdateIso : jsstring;
  metrics : list json
}.

Definition setMonthlyData (v : json) (st : Dashboard) : Dashboard :=
  {| monthlyData := v; announcements := announcements st;
     posterTop := posterTop st; posterBottom := posterBottom st;
     posterTopZoom := posterTopZoom st; posterBottomZoom := posterBottomZoom st;
     policyImages := policyImages st; policyZoom := policyZoom st;
     targetVars := targetVars st; targetFormulas := targetFormulas st;
     bestRecord := bestRecord st; lossTimeAccidents := lossTimeAccidents st;
     lastUpdateIso := lastUpdateIso st; metrics := metrics st |}.
Definition setAnnouncements (v : list json) (st : Dashboard) : Dashboard :=
  {| monthlyData := monthlyData st; announcements := v;
     posterTop := posterTop st; posterBottom := posterBottom st;
     posterTopZoom := posterTopZoom st; posterBottomZoom := posterBottomZoom st;
     policyImages := policyImages st; policyZoom := policyZoom st;
     targetVars := targetVars st; targetFormulas := targetFormulas st;
     bestRecord := bestRecord st; lossTimeAccidents := lossTimeAccidents st;
     lastUpdateIso := lastUpdateIso st; metrics := metrics st |}.
Definition setPosterTop (v : option jsstring) (st : Dashboard) : Dashboard :=
  {| monthlyData := monthlyData st; announcements := announcements st;
     posterTop := v; posterBottom := posterBottom st;
     posterTopZoom := posterTopZoom st; posterBottomZoom := posterBottomZoom st;
     policyImages := policyImages st; policyZoom := policyZoom st;
     targetVars := targetVars st; targetFormulas := targetFormulas st;
     bestRecord := bestRecord st; lossTimeAccidents := lossTimeAccidents st;
     lastUpdateIso := lastUpdateIso st; metrics := metrics st |}.
Definition setPosterBottom (v : option jsstring) (st : Dashboard) : Dashboard :=
  {| monthlyData := monthlyData st; announcements := announcements st;
     posterTop := posterTop st; posterBottom := v;
     posterTopZoom := posterTopZoom st; posterBottomZoom := posterBottomZoom st;
     policyImages := policyImages st; policyZoom := policyZoom st;
     targetVars := targetVars st; targetFormulas := targetFormulas st;
     bestRecord := bestRecord st; lossTimeAccidents := lossTimeAccidents st;
     lastUpdateIso := lastUpdateIso st; metrics := metrics st |}.
Definition setPosterTopZoom (v : number) (st : Dashboard) : Dashboard :=
  {| monthlyData := monthlyData st; announcements := announcements st;
     posterTop := posterTop st; posterBottom := posterBottom st;
     posterTopZoom := v; posterBottomZoom := posterBottomZoom st;
     policyImages := policyImages st; policyZoom := policyZoom st;
     targetVars := targetVars st; targetFormulas := targetFormulas st;
     bestRecord := bestRecord st; lossTimeAccidents := lossTimeAccidents st;
     lastUpdateIso := lastUpdateIso st; metrics := metrics st |}.
Definition setPosterBottomZoom (v : number) (st : Dashboard) : Dashboard :=
  {| monthlyData := monthlyData st; announcements := announcements st;
     posterTop := posterTop st; posterBottom := posterBottom st;
     posterTopZoom := posterTopZoom st; posterBottomZoom := v;
     policyImages := policyImages st; policyZoom := policyZoom st;
     targetVars := targetVars st; targetFormulas := targetFormulas st;
     bestRecord := bestRecord st; lossTimeAccidents := lossTimeAccidents st;
     lastUpdateIso := lastUpdateIso st; metrics := metrics st |}.
Definition setPolicyImages (v : list json) (st : Dashboard) : Dashboard :=
  {| monthlyData := monthlyData st; announcements := announcements st;
     posterTop := posterTop st; posterBottom := posterBottom st;
     posterTopZoom := posterTopZoom st; posterBottomZoom := posterBottomZoom st;
     policyImages := v; policyZoom := policyZoom st;
     targetVars := targetVars st; targetFormulas := targetFormulas st;
     bestRecord := bestRecord st; lossTimeAccidents := lossTimeAccidents st;
     lastUpdateIso := lastUpdateIso st; metrics := metrics st |}.
Definition setPolicyZoom (v : number) (st : Dashboard) : Dashboard :=
  {| monthlyData := monthlyData st; announcements := announcements st;
     posterTop := posterTop st; posterBottom := posterBottom st;
     posterTopZoom := posterTopZoom st; posterBottomZoom := posterBottomZoom st;
     policyImages := policyImages st; policyZoom := v;
     targetVars := targetVars st; targetFormulas := targetFormulas st;
     bestRecord := bestRecord st; lossTimeAccidents := lossTimeAccidents st;
     lastUpdateIso := lastUpdateIso st; metrics := metrics st |}.
Definition setTargetVars (v : json) (st : Dashboard) : Dashboard :=
  {| monthlyData := monthlyData st; announcements := announcements st;
     posterTop := posterTop st; posterBottom := posterBottom st;
     posterTopZoom := posterTopZoom st; posterBottomZoom := posterBottomZoom st;
     policyImages := policyImages st; policyZoom := policyZoom st;
     targetVars := v; targetFormulas := targetFormulas st;
     bestRecord := bestRecord st; lossTimeAccidents := lossTimeAccidents st;
     lastUpdateIso := lastUpdateIso st; metrics := metrics st |}.
Definition setTargetFormulas (v : json) (st : Dashboard) : Dashboard :=
  {| monthlyData := monthlyData st; announcements := announcements st;
     posterTop := posterTop st; posterBottom := posterBottom st;
     posterTopZoom := posterTopZoom st; posterBottomZoom := posterBottomZoom st;
     policyImages := policyImages st; policyZoom := policyZoom st;
     targetVars := targetVars st; targetFormulas := v;
     bestRecord := bestRecord st; lossTimeAccidents := lossTimeAccidents st;
     lastUpdateIso := lastUpdateIso st; metrics := metrics st |}.
Definition setBestRecord (v : number) (st : Dashboard) : Dashboard :=
  {| monthlyData := monthlyData st; announcements := announcements st;
     posterTop := posterTop st; posterBottom := posterBottom st;
     posterTopZoom := posterTopZoom st; posterBottomZoom := posterBottomZoom st;
     policyImages := policyImages st; policyZoom := policyZoom st;
     targetVars := targetVars st; targetFormulas := targetFormulas st;
     bestRecord := v; lossTimeAccidents := lossTimeAccidents st;
     lastUpdateIso := lastUpdateIso st; metrics := metrics st |}.
Definition setLossTimeAccidents (v : number) (st : Dashboard) : Dashboard :=
  {| monthlyData := monthlyData st; announcements := announcements st;
     posterTop := posterTop st; posterBottom := posterBottom st;
     posterTopZoom := posterTopZoom st; posterBottomZoom := posterBottomZoom st;
     policyImages := policyImages st; policyZoom := policyZoom st;
     targetVars := targetVars st; targetFormulas := targetFormulas st;
     bestRecord := bestRecord st; lossTimeAccidents := v;
     lastUpdateIso := lastUpdateIso st; metrics := metrics st |}.
Definition setLastUpdateIso (v : jsstring) (st : Dashboard) : Dashboard :=
  {| monthlyData := monthlyData st; announcements := announcements st;
     posterTop := posterTop st; posterBottom := posterBottom st;
     posterTopZoom := posterTopZoom st; posterBottomZoom := posterBottomZoom st;
     policyImages := policyImages st; policyZoom := policyZoom st;
     targetVars := targetVars st; targetFormulas := targetFormulas st;
     bestRecord := bestRecord st; lossTimeAccidents := lossTimeAccidents st;
     lastUpdateIso := v; metrics := metrics st |}.
Definition setMetrics (v : list json) (st : Dashboard) : Dashboard :=
  {| monthlyData := monthlyData st; announcements := announcements st;
     posterTop := posterTop st; posterBottom := posterBottom st;
     posterTopZoom := posterTopZoom st; posterBottomZoom := posterBottomZoom st;
     policyImages := policyImages st; policyZoom := policyZoom st;
     targetVars := targetVars st; targetFormulas := targetFormulas st;
     bestRecord := bestRecord st; lossTimeAccidents := lossTimeAccidents st;
     lastUpdateIso := lastUpdateIso st; metrics := v |}.

(** Effects on the dashboard state that may throw; what was set before a
    throw stays set. *)
Definition Eff (A : Type) : Type := Dashboard -> Completion A * Dashboard.

Definition eff_ret {A : Type} (a : A) : Eff A := fun st => (Normal a, st).
Definition eff_bind {A B : Type} (m : Eff A) (k : A -> Eff B) : Eff B :=
  fun st =>
    match m st with
    | (Normal a, st') => k a st'
    | (Throw, st') => (Throw, st')
    end.
Definition eff_lift {A : Type} (c : Completion A) : Eff A := fun st => (c, st).
Definition eff_set (f : Dashboard -> Dashboard) : Eff unit :=
  fun st => (Normal tt, f st).
(** [try { body } catch { handler }] *)
Definition tryCatch (body handler : Eff unit) : Eff unit :=
  fun st =>
    match body st with
    | (Normal _, st') => (Normal tt, st')
    | (Throw, st') => handler st'
    end.

Declare Scope eff_scope.
Delimit Scope eff_scope with eff.
Notation "'let!' x := m 'in' k" := (eff_bind m (fun x => k))
  (at level 10, x name, m at level 100, k at level 200) : eff_scope.
Notation "m ;; k" := (eff_bind m (fun _ => k))
  (at level 100, k at level 200, right associativity) : eff_scope.

(** What reading the stored item gives the load path. *)
Inductive StoredItem : Type :=
  | StorageFails           (* [localStorage.getItem] throws *)
  | NoItem                 (* it returns [null] or the empty string *)
  | NotJSON                (* [JSON.parse(raw)] throws *)
  | Parsed (doc : json).   (* [JSON.parse(raw)] returns [doc] *)

Section Load.
Context `{TimeZone} `{JSRuntime}.
Local Open Scope eff_scope.

(** [Number(v)] *)
Definition ToNumber (v : jsvalue) : Completion number :=
  match v with
  | None => Normal NaN
  | Some JNull => Normal (Z2F 0)
  | Some (JBool b) => Normal (Z2F (if b then 1 else 0))
  | Some (JNum n) => Normal n
  | Some (JStr s) => Normal (StringToNumber s)
  | Some v => ObjectToNumber v
  end.

(** [applyAutoSafe(data, now, year)] on a value that passed
    [isValidMonthlyData]: the typed function where the value is what its
    type says. *)
Definition applyAutoSafe_loaded (data : json) (now : JSDate) (year : Z)
  : Completion json :=
  match asMonthlyData data with
  | Some prev => Normal (calendarToJson (applyAutoSafe prev now year))
  | None => applyAutoSafe_untyped data now year
  end.

(** [applyAutoSafe(createYearData(currentYear), new Date(), currentYear)] *)
Definition freshCalendar (now : JSDate) (currentYear : Z) : json :=
  calendarToJson (applyAutoSafe (createYearData currentYear) now currentYear).

(** The calendar the load path sets from the stored [monthlyData]. *)
Definition loadMonthlyData (stored : jsvalue) (now : JSDate) (currentYear : Z)
  : Completion json :=
  match stored with
  | Some data =>
      if isValidMonthlyData stored currentYear
      then applyAutoSafe_loaded data now currentYear
      else Normal (freshCalendar now currentYear)
  | None => Normal (freshCalendar now currentYear)
  end.

(** [Array.isArray(v) && v.length ? v : dflt] *)
Definition nonEmptyArrayOr (v : jsvalue) (dflt : list json) : list json :=
  match asArray v with
  | Some (x :: rest) => x :: rest
  | _ => dflt
  end.

(** [typeof v === 'string' ? v : dflt] *)
Definition stringOr (v : jsvalue) (dflt : jsstring) : jsstring :=
  match asString v with Some s => s | None => dflt end.

(** [typeof v === 'number' ? clamp(v, 0.5, 2.5) : 1] *)
Definition loadZoom (v : jsvalue) : number :=
  match asNumber v with
  | Some n => clamp n (binary_normalize 53 1024 1 (-1) false)
                      (binary_normalize 53 1024 5 (-1) false)
  | None => Z2F 1
  end.

(** [Array.isArray(v) && v.length ? v.slice(0, 2) : DEFAULT_POLICY_IMAGES] *)
Definition loadPolicyImages (v : jsvalue) : list json :=
  match asArray v with
  | Some (x :: rest) => take 2 (x :: rest)
  | _ => DEFAULT_POLICY_IMAGES
  end.

(** [v && typeof v === 'object' ? { ...dflt, ...v } : dflt] *)
Definition spreadOr (v : jsvalue) (dflt : list (jsstring * json)) : json :=
  match v with
  | Some o => if isObject v then objectSpread dflt o else JObj dflt
  | None => JObj dflt
  end.

(** [Number.isFinite(Number(v)) ? Number(v) : 0] *)
Definition loadFiniteNumber (v : jsvalue) : Completion number :=
  match ToNumber v with
  | Normal n => if isFinite n then ToNumber v else Normal (Z2F 0)
  | Throw => Throw
  end.

(** The body of the [try] block once [JSON.parse] has returned [doc].
    [now] is the clock reading [new Date()] gives during the load. *)
Definition loadParsed (doc : json) (now : JSDate) (currentYear : Z) : Eff unit :=
  let parsed := Some doc in
  let! stored := eff_lift (getProp parsed (js "monthlyData")) in
  let! cal := eff_lift (loadMonthlyData stored now currentYear) in
  eff_set (setMonthlyData cal) ;;
  let! a := eff_lift (getProp parsed (js "announcements")) in
  eff_set (setAnnouncements (nonEmptyArrayOr a DEFAULT_ANNOUNCEMENTS)) ;;
  let! pt := eff_lift (getProp parsed (js "posterTop")) in
  eff_set (setPosterTop (Some (stringOr pt DEFAULT_POSTER_TOP))) ;;
  let! pb := eff_lift (getProp parsed (js "posterBottom")) in
  eff_set (setPosterBottom (Some (stringOr pb DEFAULT_POSTER_BOTTOM))) ;;
  let! ptz := eff_lift (getProp parsed (js "posterTopZoom")) in
  eff_set (setPosterTopZoom (loadZoom ptz)) ;;
  let! pbz := eff_lift (getProp parsed (js "posterBottomZoom")) in
  eff_set (setPosterBottomZoom (loadZoom pbz)) ;;
  let! pi := eff_lift (getProp parsed (js "policyImages")) in
  eff_set (setPolicyImages (loadPolicyImages pi)) ;;
  let! pz := eff_lift (getProp parsed (js "policyZoom")) in
  eff_set (setPolicyZoom (loadZoom pz)) ;;
  let! tv := eff_lift (getProp parsed (js "targetVars")) in
  eff_set (setTargetVars (spreadOr tv DEFAULT_TARGET_VARS)) ;;
  let! tf := eff_lift (getProp parsed (js "targetFormulas")) in
  eff_set (setTargetFormulas (spreadOr tf DEFAULT_TARGET_FORMULAS)) ;;
  let! br := eff_lift (getProp parsed (js "bestRecord")) in
  let! brn := eff_lift (loadFiniteNumber br) in
  eff_set (setBestRecord brn) ;;
  let! lta := eff_lift (getProp parsed (js "lossTimeAccidents")) in
  let! ltan := eff_lift (loadFiniteNumber lta) in
  eff_set (setLossTimeAccidents ltan) ;;
  let! lu := eff_lift (getProp parsed (js "lastUpdateIso")) in
  eff_set (setLastUpdateIso (stringOr lu (toISOString now))) ;;
  let! ms := eff_lift (getProp parsed (js "metrics")) in
  eff_set (setMetrics (nonEmptyArrayOr ms DEFAULT_METRICS)).

(** The effect that loads the persisted state. *)
Definition loadPersistedState (item : StoredItem) (now : JSDate) (currentYear : Z)
  : Eff unit :=
  tryCatch
    match item with
    | StorageFails | NotJSON => eff_lift Throw
    | NoItem => eff_set (setMonthlyData (freshCalendar now currentYear))
    | Parsed doc => loadParsed doc now currentYear
    end
    (eff_set (setMonthlyData (freshCalendar now currentYear))).

(** The state before the load: the initial values of the [useState]s,
    [now] being the time of the first render. *)
Definition initialDashboard (now : JSDate) (currentYear : Z) : Dashboard :=
  {| monthlyData := calendarToJson (createYearData currentYear);
     announcements := DEFAULT_ANNOUNCEMENTS;
     posterTop := Some DEFAULT_POSTER_TOP;
     posterBottom := Some DEFAULT_POSTER_BOTTOM;
     posterTopZoom := Z2F 1;
     posterBottomZoom := Z2F 1;
     policyImages := DEFAULT_POLICY_IMAGES;
     policyZoom := Z2F 1;
     targetVars := JObj DEFAULT_TARGET_VARS;
     targetFormulas := JObj DEFAULT_TARGET_FORMULAS;
     bestRecord := Z2F 0;
     lossTimeAccidents := Z2F 0;
     lastUpdateIso := toISOString now;
     metrics := DEFAULT_METRICS |}.

(** The state once the load effect has run on a freshly mounted dashboard. *)
Definition loaded (item : StoredItem) (now : JSDate) (currentYear : Z) : Dashboard :=
  snd (loadPersistedState item now currentYear (initialDashboard now currentYear)).
End Load.

(* ------------------------------------------------------------------ *)
(** ** The formula evaluator                                            *)
(* ------------------------------------------------------------------ *)

(** The characters [\s] matches, which are also those [trim] strips:
    ECMAScript's white space and line terminators. *)
Definition isWhiteSpace (c : N) : bool :=
  ((9 <=? c) && (c <=? 13) || (c =? 32) || (c =? 160) || (c =? 5760)
   || (8192 <=? c) && (c <=? 8202) || (c =? 8232) || (c =? 8233)
   || (c =? 8239) || (c =? 8287) || (c =? 12288) || (c =? 65279))%N.

Definition isDigit (c : N) : bool := ((48 <=? c) && (c <=? 57))%N.
Definition isLetter (c : N) : bool :=
  ((65 <=? c) && (c <=? 90) || (97 <=? c) && (c <=? 122))%N.

(** The punctuators among the whitelisted characters: [+ - * / ( ) .] *)
Definition isPunct (c : N) : bool :=
  ((c =? 43) || (c =? 45) || (c =? 42) || (c =? 47)
   || (c =? 40) || (c =? 41) || (c =? 46))%N.

(** The character class of [/^[0-9a-zA-Z_+\-*/().\s]*$/]. *)
Definition whitelisted (c : N) : bool :=
  isDigit c || isLetter c || (c =? 95)%N || isPunct c || isWhiteSpace c.

Fixpoint trimStart (s : jsstring) : jsstring :=
  match s with
  | c :: rest => if isWhiteSpace c then trimStart rest else s
  | [] => []
  end.
Definition trimEnd (s : jsstring) : jsstring := rev (trimStart (rev s)).
Definition trim (s : jsstring) : jsstring := trimEnd (trimStart s).

(** [vars: Record<string, number>] *)
Definition Vars := list (jsstring * number).

(** The values of the fragment of JavaScript that is modelled. *)
Inductive builtin : Type := Date_ | Date_now.
Inductive value : Type :=
  | VUndefined
  | VNumber (n : number)
  | VBuiltin (b : builtin)
  | VPromise.

Section SafeEval.
(** [World] is everything outside the two arguments that running code
    can read or change. [callNewFunction body vars w] is
    [new Function('vars', body)(vars)] in the world [w]: how it completes
    and the world afterwards, or [None] where it gives no answer. *)
Context {World : Type}.
Variable callNewFunction :
  jsstring -> Vars -> World -> option (Completion value * World).

Definition safeEval (expr : jsstring) (vars : Vars) (w : World)
  : option (option number * World) :=
  let s := trim expr in
  if bool_decide (s = []) then Some (None, w)
  else if negb (forallb whitelisted s) then Some (None, w)
  else
    match callNewFunction (js "with(vars){ return (" ++ s ++ js "); }") vars w with
    | None => None
    | Some (Normal (VNumber out), w') =>
        if isFinite out then Some (Some out, w') else Some (None, w')
    | Some (_, w') => Some (None, w')
    end.
End SafeEval.

(** *** A fragment of JavaScript

    What [new Function('vars', 'with(vars){ return (s); }')(vars)] does
    for the [s] of a small expression language: integer literals,
    identifiers, member access, calls with at most one argument, unary and
    binary [+ - * /], parentheses and dynamic [import]. Every function
    below answers [None] outside the fragment, never a guess. *)

(** The host of the evaluation. [globalScope x] is the binding of [x] in
    the global scope. *)
Inductive Binding : Type :=
  | Unbound
  | Bound (v : value)
  | BoundOther.   (* bound to a value outside the fragment *)

Record Host := {
  clock : Z;   (* milliseconds since the epoch *)
  globalScope : jsstring -> Binding
}.

Inductive token : Type :=
  | TNum (n : Z)
  | TWord (w : jsstring)
  | TPunct (c : N).

(** What the lexer is in the middle of. *)
Inductive lexing : Type :=
  | Idle (last : option N)     (* [last]: the punctuator just before, if any *)
  | InNum (digits : nat) (n : Z)
  | InWord (w : jsstring).

Definition isWordStart (c : N) : bool := isLetter c || (c =? 95)%N || (c =? 36)%N.
Definition isWordPart (c : N) : bool := isWordStart c || isDigit c.

(** Two punctuators in a row that JavaScript reads as one token or as the
    start of a comment: [++ -- ** // /* ..] *)
Definition glued (p c : N) : bool :=
  ((p =? c) && ((c =? 43) || (c =? 45) || (c =? 42) || (c =? 47) || (c =? 46))
   || (p =? 47) && (c =? 42))%N.

Definition flush (st : lexing) (acc : list token) : list token :=
  match st with
  | Idle _ => acc
  | InNum _ n => TNum n :: acc
  | InWord w => TWord (rev w) :: acc
  end.

(** The tokens of [cs], last first in [acc]. *)
Fixpoint lex (cs : jsstring) (st : lexing) (acc : list token) : option (list token) :=
  match cs with
  | [] => Some (rev (flush st acc))
  | c :: rest =>
      match st with
      | InNum digits n =>
          if isDigit c then
            (* no leading zero, at most 20 digits *)
            if (n =? 0) || (20 <=? digits)%nat then None
            else lex rest (InNum (S digits) (10 * n + (Z.of_N c - 48))) acc
          else if isWordStart c || (c =? 46)%N then None
          else if isWhiteSpace c then lex rest (Idle None) (flush st acc)
          else if isPunct c then lex rest (Idle (Some c)) (TPunct c :: flush st acc)
          else None
      | InWord w =>
          if isWordPart c then lex rest (InWord (c :: w)) acc
          else if isWhiteSpace c then lex rest (Idle None) (flush st acc)
          else if isPunct c then lex rest (Idle (Some c)) (TPunct c :: flush st acc)
          else None
      | Idle last =>
          if isWhiteSpace c then lex rest (Idle None) acc
          else if isDigit c then
            match last with
            | Some 46%N => None   (* a literal that starts with a point *)
            | _ => lex rest (InNum 1 (Z.of_N c - 48)) acc
            end
          else if isWordStart c then lex rest (InWord [c]) acc
          else if isPunct c then
            match last with
            | Some p => if glued p c then None
                        else lex rest (Idle (Some c)) (TPunct c :: acc)
            | None => lex rest (Idle (Some c)) (TPunct c :: acc)
            end
          else None
      end
  end.

Inductive binop : Type := Add | Sub | Mul | Div.

Inductive expr : Type :=
  | ENum (n : Z)
  | EId (x : jsstring)
  | EMember (e : expr) (name : jsstring)
  | ECall (f : expr) (arg : option expr)
  | EPos (e : expr)
  | ENeg (e : expr)
  | EBin (op : binop) (l r : expr)
  | EImport (e : expr).

(** Words that are not plain identifiers where an expression starts:
    the reserved words and the words with a meaning of their own in some
    context. *)
Definition specialWords : list jsstring :=
  map js
    [ "break"; "case"; "catch"; "class"; "const"; "continue"; "debugger";
      "default"; "delete"; "do"; "else"; "enum"; "export"; "extends";
      "false"; "finally"; "for"; "function"; "if"; "import"; "in";
      "instanceof"; "new"; "null"; "return"; "super"; "switch"; "this";
      "throw"; "true"; "try"; "typeof"; "var"; "void"; "while"; "with";
      "let"; "static"; "implements"; "interface"; "package"; "private";
      "protected"; "public"; "yield"; "await"; "async"; "of"; "get"; "set";
      "eval"; "arguments"; "using"; "accessor" ]%string.

Definition isSpecialWord (w : jsstring) : bool :=
  existsb (jsstring_eqb w) specialWords.

(** A recursive descent parser; [fuel] bounds its depth. Each function
    returns the expression and the tokens left. *)
Fixpoint parseUnary (fuel : nat) (ts : list token) : option (expr * list token) :=
  match fuel with
  | O => None
  | S fuel =>
      match ts with
      | TPunct 43%N :: r =>
          match parseUnary fuel r with
          | Some (e, r') => Some (EPos e, r')
          | None => None
          end
      | TPunct 45%N :: r =>
          match parseUnary fuel r with
          | Some (e, r') => Some (ENeg e, r')
          | None => None
          end
      | TNum n :: r => parseSuffix fuel (ENum n) r
      | TWord w :: r =>
          if jsstring_eqb w (js "import") then
            match r with
            | TPunct 40%N :: r1 =>
                match parseAdd fuel r1 with
                | Some (a, TPunct 41%N :: r2) => parseSuffix fuel (EImport a) r2
                | _ => None
                end
            | _ => None
            end
          else if isSpecialWord w then None
          else parseSuffix fuel (EId w) r
      | TPunct 40%N :: r =>
          match parseAdd fuel r with
          | Some (e, TPunct 41%N :: r') => parseSuffix fuel e r'
          | _ => None
          end
      | _ => None
      end
  end
with parseSuffix (fuel : nat) (e : expr) (ts : list token) : option (expr * list token) :=
  match fuel with
  | O => None
  | S fuel =>
      match ts with
      | TPunct 46%N :: TWord w :: r => parseSuffix fuel (EMember e w) r
      | TPunct 40%N :: TPunct 41%N :: r => parseSuffix fuel (ECall e None) r
      | TPunct 40%N :: r =>
          match parseAdd fuel r with
          | Some (a, TPunct 41%N :: r') => parseSuffix fuel (ECall e (Some a)) r'
          | _ => None
          end
      | TPunct 46%N :: _ => None
      | _ => Some (e, ts)
      end
  end
with parseMul (fuel : nat) (ts : list token) : option (expr * list token) :=
  match fuel with
  | O => None
  | S fuel =>
      match parseUnary fuel ts with
      | Some (l, r) => parseMulRest fuel l r
      | None => None
      end
  end
with parseMulRest (fuel : nat) (l : expr) (ts : list token) : option (expr * list token) :=
  match fuel with
  | O => None
  | S fuel =>
      match ts with
      | TPunct 42%N :: r =>
          match parseUnary fuel r with
          | Some (e, r') => parseMulRest fuel (EBin Mul l e) r'
          | None => None
          end
      | TPunct 47%N :: r =>
          match parseUnary fuel r with
          | Some (e, r') => parseMulRest fuel (EBin Div l e) r'
          | None => None
          end
      | _ => Some (l, ts)
      end
  end
with parseAdd (fuel : nat) (ts : list token) : option (expr * list token) :=
  match fuel with
  | O => None
  | S fuel =>
      match parseMul fuel ts with
      | Some (l, r) => parseAddRest fuel l r
      | None => None
      end
  end
with parseAddRest (fuel : nat) (l : expr) (ts : list token) : option (expr * list token) :=
  match fuel with
  | O => None
  | S fuel =>
      match ts with
      | TPunct 43%N :: r =>
          match parseMul fuel r with
          | Some (e, r') => parseAddRest fuel (EBin Add l e) r'
          | None => None
          end
      | TPunct 45%N :: r =>
          match parseMul fuel r with
          | Some (e, r') => parseAddRest fuel (EBin Sub l e) r'
          | None => None
          end
      | _ => Some (l, ts)
      end
  end.

Definition parseExpression (s : jsstring) : option expr :=
  match lex s (Idle None) [] with
  | Some ts =>
      match parseAdd (4 * length ts + 8) ts with
      | Some (e, []) => Some e
      | _ => None
      end
  | None => None
  end.

(** The properties every object inherits from [Object.prototype]; the
    [with] statement finds them on [vars] before any outer scope. *)
Definition objectPrototypeNames : list jsstring :=
  map js
    [ "constructor"; "hasOwnProperty"; "isPrototypeOf"; "propertyIsEnumerable";
      "toLocaleString"; "toString"; "valueOf"; "__proto__"; "__defineGetter__";
      "__defineSetter__"; "__lookupGetter__"; "__lookupSetter__" ]%string.

(** An identifier in the body of [with(vars){ ... }] inside
    [function anonymous(vars)]: first the properties of [vars], then the
    function's own scope, then the global scope, and a [ReferenceError]
    when nothing binds it. *)
Definition resolveIdentifier (h : Host) (vars : Vars) (x : jsstring)
  : option (Completion value) :=
  match assoc x vars with
  | Some n => Some (Normal (VNumber n))
  | None =>
      if existsb (jsstring_eqb x) objectPrototypeNames then None
      else if jsstring_eqb x (js "vars") || jsstring_eqb x (js "arguments") then None
      else
        match globalScope h x with
        | Bound v => Some (Normal v)
        | BoundOther => None
        | Unbound => Some Throw
        end
  end.

(** [ToNumber] on the values of the fragment. *)
Definition valueToNumber (v : value) : option number :=
  match v with
  | VNumber n => Some n
  | VUndefined => Some NaN
  | _ => None
  end.

Definition applyBinop (op : binop) (a b : number) : number :=
  match op with
  | Add => SFadd 53 1024 a b
  | Sub => SFsub 53 1024 a b
  | Mul => SFmul 53 1024 a b
  | Div => SFdiv 53 1024 a b
  end.

(** [v.name] *)
Definition getMember (v : value) (name : jsstring) : option (Completion value) :=
  match v with
  | VUndefined => Some Throw   (* TypeError *)
  | VBuiltin Date_ =>
      if jsstring_eqb name (js "now") then Some (Normal (VBuiltin Date_now)) else None
  | _ => None
  end.

(** [f(arg)], once [f] and [arg] are evaluated. *)
Definition callValue (h : Host) (f : value) : option (Completion value) :=
  match f with
  | VBuiltin Date_now => Some (Normal (VNumber (Z2F (clock h))))
  | VBuiltin Date_ => None                 (* a string *)
  | VUndefined | VNumber _ | VPromise => Some Throw   (* TypeError *)
  end.

Fixpoint evalExpr (h : Host) (vars : Vars) (e : expr) : option (Completion value) :=
  match e with
  | ENum n => Some (Normal (VNumber (Z2F n)))
  | EId x => resolveIdentifier h vars x
  | EMember e name =>
      match evalExpr h vars e with
      | Some (Normal v) => getMember v name
      | r => r
      end
  | ECall f arg =>
      match evalExpr h vars f with
      | Some (Normal fv) =>
          match arg with
          | None => callValue h fv
          | Some a =>
              match evalExpr h vars a with
              | Some (Normal _) => callValue h fv
              | r => r
              end
          end
      | r => r
      end
  | EPos e =>
      match evalExpr h vars e with
      | Some (Normal v) => option_map (fun n => Normal (VNumber n)) (valueToNumber v)
      | r => r
      end
  | ENeg e =>
      match evalExpr h vars e with
      | Some (Normal v) =>
          option_map (fun n => Normal (VNumber (SFopp n))) (valueToNumber v)
      | r => r
      end
  | EBin op l r =>
      match evalExpr h vars l with
      | Some (Normal lv) =>
          match evalExpr h vars r with
          | Some (Normal rv) =>
              match valueToNumber lv, valueToNumber rv with
              | Some a, Some b => Some (Normal (VNumber (applyBinop op a b)))
              | _, _ => None
              end
          | r' => r'
          end
      | r' => r'
      end
  | EImport e =>
      match evalExpr h vars e with
      | Some (Normal (VNumber _ | VUndefined)) => Some (Normal VPromise)
      | Some (Normal _) => None
      | r => r
      end
  end.

(** [s] when [body] is [prefix ++ s ++ suffix]. *)
Definition between (prefix suffix body : jsstring) : option jsstring :=
  let n := length prefix in
  let k := length suffix in
  if bool_decide (take n body = prefix)
     && bool_decide (drop (length body - k) body = suffix)
     && (n + k <=? length body)%nat
  then Some (take (length body - n - k) (drop n body))
  else None.

(** [new Function('vars', body)(vars)] for the bodies [safeEval] builds
    around an expression of the fragment. Nothing in the fragment changes
    the host. *)
Definition callNewFunction (body : jsstring) (vars : Vars) (h : Host)
  : option (Completion value * Host) :=
  match between (js "with(vars){ return (") (js "); }") body with
  | Some s =>
      match parseExpression s with
      | Some e => option_map (fun c => (c, h)) (evalExpr h vars e)
      | None => None
      end
  | None => None
  end.

(** The names the ECMAScript global object binds. *)
Definition standardGlobalNames : list jsstring :=
  map js
    [ "globalThis"; "eval"; "isFinite"; "isNaN"; "parseFloat"; "parseInt";
      "decodeURI"; "decodeURIComponent"; "encodeURI"; "encodeURIComponent";
      "escape"; "unescape"; "AggregateError"; "Array"; "ArrayBuffer"; "BigInt";
      "BigInt64Array"; "BigUint64Array"; "Boolean"; "DataView"; "Error";
      "EvalError"; "FinalizationRegistry"; "Float16Array"; "Float32Array";
      "Float64Array"; "Function"; "Int8Array"; "Int16Array"; "Int32Array";
      "Iterator"; "Map"; "Number"; "Object"; "Promise"; "Proxy"; "RangeError";
      "ReferenceError"; "RegExp"; "Set"; "SharedArrayBuffer"; "String"; "Symbol";
      "SyntaxError"; "TypeError"; "Uint8Array"; "Uint8ClampedArray";
      "Uint16Array"; "Uint32Array"; "URIError"; "WeakMap"; "WeakRef"; "WeakSet";
      "Atomics"; "JSON"; "Math"; "Reflect"; "Intl" ]%string.

(** A host with the ECMAScript globals and no others, its clock at [now]. *)
Definition standardHost (now : Z) : Host :=
  {| clock := now;
     globalScope := fun x =>
       if jsstring_eqb x (js "undefined") then Bound VUndefined
       else if jsstring_eqb x (js "NaN") then Bound (VNumber NaN)
       else if jsstring_eqb x (js "Infinity") then Bound (VNumber (S754_infinity false))
       else if jsstring_eqb x (js "Date") then Bound (VBuiltin Date_)
       else if existsb (jsstring_eqb x) standardGlobalNames then BoundOther
       else Unbound |}.

(* ------------------------------------------------------------------ *)
(** ** The vocabulary of the properties                                 *)
(* ------------------------------------------------------------------ *)

(** The number of days of month [mn] (0-based) of year [y] in the
    Gregorian calendar. *)
Definition daysInMonth (y mn : Z) : Z :=
  match mn with
  | 0 | 2 | 4 | 6 | 7 | 9 | 11 => 31
  | 3 | 5 | 8 | 10 => 30
  | 1 => if isLeapYear y then 29 else 28
  | _ => 0
  end.

(** The years in which every [Date] the code builds is valid and
    [new Date(year, ...)] means the year it is given: four-digit-style
    years up to the last one that lies wholly within the range of time
    values. *)
Definition supportedYear (y : Z) : Prop := 100 <= y <= 275759.


(** The month and the day of the month of a day number. *)
Definition monthOfDay (d : Z) : Z := MonthFromTime (MakeDate d 0).
Definition dateOfDay (d : Z) : Z := DateFromTime (MakeDate d 0).

(** [(m, d)] comes before [(m', d')] in the year. *)
Definition dateBefore (m d m' d' : Z) : bool :=
  (m <? m') || ((m =? m') && (d <? d')).

(** A calendar with every status removed. *)
Definition clearStatuses (c : list MonthlyData) : list MonthlyData :=
  map (fun mm => {| month := month mm; year := year mm;
                    days := map (fun dd => {| day := day dd; status := None |})
                                (days mm) |}) c.

(** The calendars of year [yr]: what [createYearData yr] builds, with any
    statuses filled in. *)
Definition isYearCalendar `{TimeZone} (yr : Z) (c : list MonthlyData) : Prop :=
  clearStatuses c = createYearData yr.

(** The calendars with at most twelve months in which every day carries a
    day number that exists in its month of the year [yr]. *)
Definition datedCalendar (yr : Z) (c : list MonthlyData) : Prop :=
  (length c <= 12)%nat
  /\ forall (m i : nat) (mm : MonthlyData) (dd : DailyStatistic),
       c !! m = Some mm -> days mm !! i = Some dd ->
       1 <= day dd <= daysInMonth yr (Z.of_nat m).

(** The test [applyAutoSafe] makes on the day [dd] of the month at index
    [m]: it is unset and its date is before today, or it is today and the
    cutoff has passed. *)
Definition autoSafeDue `{TimeZone} (now : JSDate) (yr : Z) (m : nat)
    (dd : DailyStatistic) : bool :=
  match status dd with
  | Some _ => false
  | None =>
      num_lt (newDate yr (Z.of_nat m) (day dd))
             (newDateN (Some yr) (getMonth now) (getDate now))
      || afterCutoff now
         && num_eq (Some (Z.of_nat m)) (getMonth now)
         && num_eq (Some (day dd)) (getDate now)
  end.

(** A calendar with the statuses of its first twelve months replaced:
    [f m dd] is the new status of the day [dd] of the month at index [m]. *)
Definition mapStatuses (f : nat -> DailyStatistic -> DayStatus)
    (c : list MonthlyData) : list MonthlyData :=
  imap (fun m mm =>
          if (m <? 12)%nat then
            {| month := month mm; year := year mm;
               days := map (fun dd => {| day := day dd; status := f m dd |}) (days mm) |}
          else mm) c.

(** The status the specification gives a day after the rollover at a
    moment whose local month, day of the month and hour are [tm], [td] and
    [hh]: unset days before today become safe, today too from 16:00 on,
    nothing else changes. *)
Definition rolledOver (tm td hh : Z) (m : nat) (dd : DailyStatistic) : DayStatus :=
  match status dd with
  | Some s => Some s
  | None =>
      if dateBefore (Z.of_nat m) (day dd) tm td then Some safe
      else if (Z.of_nat m =? tm) && (day dd =? td) && (AUTO_SAFE_HOUR <=? hh)
           then Some safe
           else None
  end.

(** The statuses of a calendar, month by month. *)
Definition statuses (c : list MonthlyData) : list (list DayStatus) :=
  map (fun mm => map status (days mm)) c.

(** Some day among the first twelve months passes the test of
    [applyAutoSafe]. *)
Definition anyDue `{TimeZone} (now : JSDate) (yr : Z) (prev : list MonthlyData) : bool :=
  existsb (fun b : bool => b)
    (imap (fun m mm => existsb (autoSafeDue now yr m) (days mm)) (take 12 prev)).

(** The status [applyAutoSafe] leaves on a day, by the test it makes. *)
Definition autoSafeStatus `{TimeZone} (now : JSDate) (yr : Z) (m : nat)
    (dd : DailyStatistic) : DayStatus :=
  if autoSafeDue now yr m dd then Some safe else status dd.

(** The time zone of the examples: Indochina Time, UTC+7. *)
#[global] Instance Asia_Bangkok : TimeZone :=
  {| LocalTZA := 25200000; LocalTZA_bound := conj eq_refl eq_refl |}.

(** [new Date(y, m, d, h, min)] for a supported year [y]. *)
Definition newDateTime `{TimeZone} (y m d h min : Z) : JSDate :=
  TimeClip (UTC (MakeDate (MakeDay y m d) (h * msPerHour + min * msPerMinute))).

(** The day at index [i] of the month at index [m], if there is one. *)
Definition dayAt (c : list MonthlyData) (m i : nat) : option DailyStatistic :=
  match c !! m with
  | Some mm => days mm !! i
  | None => None
  end.

(** Everything in a calendar but the statuses: the month and year fields
    and the day numbers. *)
Definition frame (c : list MonthlyData) : list (Z * Z * list Z) :=
  map (fun mm => (month mm, year mm, map day (days mm))) c.

(** [f] applied [n] times. *)
Fixpoint iterate {A : Type} (n : nat) (f : A -> A) (a : A) : A :=
  match n with
  | O => a
  | S n => f (iterate n f a)
  end.

(** What [isValidMonthlyData] asks of the element at index [idx]: an object
    whose [month] is [idx], whose [year] is [yr] and whose [days] is an
    array as long as that month. *)
Definition validMonthShape (yr : Z) (idx : nat) (m : json) : Prop :=
  exists (props : list (jsstring * json)) (ds : list json),
    m = JObj props
    /\ strictEqualsInt (assoc (js "month") props) (Z.of_nat idx) = true
    /\ strictEqualsInt (assoc (js "year") props) yr = true
    /\ assoc (js "days") props = Some (JArr ds)
    /\ Z.of_nat (length ds) = daysInMonth yr (Z.of_nat idx).

(** The status a calendar holds for the date of the day number [d]. *)
Definition statusOnDay `{TimeZone} (monthlyData : list MonthlyData) (d : Z)
  : DayStatus :=
  statusOf monthlyData (Some (monthOfDay d)) (Some (dateOfDay d)).

(** The number of days that count, going back day by day from [d] over at
    most [n] days and stopping at the first that does not count. *)
Fixpoint runBack (counts : Z -> bool) (d : Z) (n : nat) : Z :=
  match n with
  | O => 0
  | S n' => if counts d then 1 + runBack counts (d - 1) n' else 0
  end.

(** A runtime for the examples, whose documents make the load path call
    none of its operations. *)
#[global] Instance exampleRuntime : JSRuntime :=
  {| StringToNumber := fun _ => NaN;
     ObjectToNumber := fun _ => Throw;
     objectSpread := fun dflt _ => JObj dflt;
     toISOString := fun _ => [];
     applyAutoSafe_untyped := fun _ _ _ => Throw |}.

(** The calendar of 2026 with 8, 9 and 10 January safe. *)
Definition januaryStreak : list MonthlyData :=
  setDayStatus 0 8 (Some safe)
    (setDayStatus 0 9 (Some safe)
       (setDayStatus 0 10 (Some safe) (createYearData 2026))).

(** A stored document whose calendar is the fresh one of 2026 and whose
    announcements are a string. *)
Definition corruptAnnouncements : json :=
  JObj [ (js "monthlyData", calendarToJson (createYearData 2026));
         (js "announcements", JStr (js "PPE Audit"));
         (js "posterTop", JStr (js "/top.png"));
         (js "posterTopZoom", JNum (Z2F 3));
         (js "bestRecord", JNum (Z2F 120));
         (js "lossTimeAccidents", JNum (Z2F 0));
         (js "lastUpdateIso", JStr (js "2026-03-14T09:00:00.000Z"));
         (js "metrics", JArr [metric "m1" "First Aid" "2" "case"]) ].

(** A stored document whose announcements and metrics are empty arrays. *)
Definition emptyLists : json :=
  JObj [ (js "monthlyData", calendarToJson (createYearData 2026));
         (js "announcements", JArr []);
         (js "lastUpdateIso", JStr (js "2026-03-14T09:00:00.000Z"));
         (js "metrics", JArr []) ].
(* ================================================================== *)
(** * Part II.  Properties                                              *)
(* ================================================================== *)

(* ------------------------------------------------------------------ *)
(** ** Dates                                                            *)
(* ------------------------------------------------------------------ *)

Lemma YearFromDay_spec (d : Z) :
  DayFromYear (YearFromDay d) <= d < DayFromYear (YearFromDay d + 1).
Proof.
  unfold DayFromYear, YearFromDay; cbv zeta.
  Z.div_mod_to_equations; lia.
Qed.

Lemma isLeapYear_cases (y : Z) :
  (isLeapYear y = true /\ DaysInYear y = 366) \/
  (isLeapYear y = false /\ DaysInYear y = 365).
Proof. unfold DaysInYear; destruct (isLeapYear y); auto. Qed.

Lemma DayFromYear_succ (y : Z) :
  DayFromYear (y + 1) = DayFromYear y + DaysInYear y.
Proof.
  unfold DaysInYear, isLeapYear, DayFromYear.
  destruct (Z.eqb_spec (y mod 4) 0), (Z.eqb_spec (y mod 100) 0),
    (Z.eqb_spec (y mod 400) 0); cbn [andb orb negb];
    Z.div_mod_to_equations; lia.
Qed.

Lemma DayFromYear_mono (y1 y2 : Z) :
  y1 <= y2 -> DayFromYear y1 <= DayFromYear y2.
Proof.
  unfold DayFromYear; intros. Z.div_mod_to_equations; lia.
Qed.

Lemma YearFromDay_unique (y d : Z) :
  DayFromYear y <= d < DayFromYear (y + 1) -> YearFromDay d = y.
Proof.
  intros Hy. pose proof (YearFromDay_spec d) as Hs.
  destruct (Z.lt_trichotomy (YearFromDay d) y) as [Hlt | [Heq | Hgt]]; [| exact Heq |].
  - pose proof (DayFromYear_mono (YearFromDay d + 1) y ltac:(lia)). lia.
  - pose proof (DayFromYear_mono (y + 1) (YearFromDay d) ltac:(lia)). lia.
Qed.

Lemma Day_MakeDate (day time : Z) :
  0 <= time < msPerDay -> Day (MakeDate day time) = day.
Proof.
  unfold Day, MakeDate, msPerDay; intros. Z.div_mod_to_equations; lia.
Qed.

Lemma TimeWithinDay_MakeDate (day time : Z) :
  0 <= time < msPerDay -> TimeWithinDay (MakeDate day time) = time.
Proof.
  unfold TimeWithinDay, MakeDate, msPerDay; intros. Z.div_mod_to_equations; lia.
Qed.

Lemma MakeDate_Day (t : Z) : MakeDate (Day t) (TimeWithinDay t) = t.
Proof.
  unfold MakeDate, Day, TimeWithinDay, msPerDay. Z.div_mod_to_equations; lia.
Qed.

Lemma TimeWithinDay_range (t : Z) : 0 <= TimeWithinDay t < msPerDay.
Proof. unfold TimeWithinDay, msPerDay. Z.div_mod_to_equations; lia. Qed.

Lemma fields_of_day (t : Z) :
  YearFromTime t = YearFromDay (Day t)
  /\ MonthFromTime t = monthOfDay (Day t)
  /\ DateFromTime t = dateOfDay (Day t).
Proof.
  unfold monthOfDay, dateOfDay, DateFromTime, MonthFromTime, InLeapYear,
    DayWithinYear, YearFromTime.
  rewrite Day_MakeDate by (unfold msPerDay; lia). auto.
Qed.

Lemma MakeDay_in_year (y mn dt : Z) :
  0 <= mn < 12 ->
  MakeDay y mn dt
  = DayFromYear y + monthStart (if isLeapYear y then 1 else 0) mn + dt - 1.
Proof.
  intros Hmn. unfold MakeDay.
  replace (mn / 12) with 0 by (Z.div_mod_to_equations; lia).
  replace (mn mod 12) with mn by (Z.div_mod_to_equations; lia).
  rewrite Z.add_0_r. reflexivity.
Qed.

Ltac month_cases mn :=
  let Hc := fresh "Hc" in
  assert (Hc : mn = 0 \/ mn = 1 \/ mn = 2 \/ mn = 3 \/ mn = 4 \/ mn = 5 \/ mn = 6
               \/ mn = 7 \/ mn = 8 \/ mn = 9 \/ mn = 10 \/ mn = 11) by lia;
  repeat (destruct Hc as [-> | Hc]); try subst mn.

Ltac ltb_cases :=
  repeat (match goal with
          | |- context [?a <? ?b] => destruct (Z.ltb_spec a b)
          end; try lia).

(** The month table inverts [monthStart]. *)
Lemma monthOfYearDay_monthStart (y mn dt : Z) :
  0 <= mn < 12 -> 1 <= dt <= daysInMonth y mn ->
  let leap := if isLeapYear y then 1 else 0 in
  0 <= monthStart leap mn + dt - 1 < DaysInYear y
  /\ monthOfYearDay leap (monthStart leap mn + dt - 1) = mn.
Proof.
  intros Hmn Hdt. unfold DaysInYear, daysInMonth in *.
  destruct (isLeapYear y); month_cases mn;
    cbn [monthStart] in *; unfold monthOfYearDay; ltb_cases; split; lia.
Qed.

Lemma monthStart_monthOfYearDay (y k : Z) :
  0 <= k < DaysInYear y ->
  let leap := if isLeapYear y then 1 else 0 in
  let mn := monthOfYearDay leap k in
  0 <= mn < 12 /\ 1 <= k - monthStart leap mn + 1 <= daysInMonth y mn.
Proof.
  intros Hk. unfold DaysInYear, daysInMonth in *.
  destruct (isLeapYear y); unfold monthOfYearDay; ltb_cases;
    cbn [monthStart]; lia.
Qed.

(** The fields of the [dt]-th day of month [mn] of year [y]. *)
Lemma fields_of_MakeDay (y mn dt : Z) :
  0 <= mn < 12 -> 1 <= dt <= daysInMonth y mn ->
  YearFromDay (MakeDay y mn dt) = y
  /\ monthOfDay (MakeDay y mn dt) = mn
  /\ dateOfDay (MakeDay y mn dt) = dt.
Proof.
  intros Hmn Hdt.
  pose proof (MakeDay_in_year y mn dt Hmn) as Hday.
  destruct (monthOfYearDay_monthStart y mn dt Hmn Hdt) as [Hrange Hmonth].
  assert (Hyear : YearFromDay (MakeDay y mn dt) = y).
  { apply YearFromDay_unique. rewrite DayFromYear_succ. lia. }
  unfold monthOfDay, dateOfDay, DateFromTime, MonthFromTime, InLeapYear,
    DayWithinYear, YearFromTime.
  rewrite Day_MakeDate by (unfold msPerDay; lia).
  rewrite Hyear. split; [reflexivity |].
  replace (MakeDay y mn dt - DayFromYear y)
    with (monthStart (if isLeapYear y then 1 else 0) mn + dt - 1) by lia.
  rewrite Hmonth. split; [reflexivity | lia].
Qed.

(** Conversely, a day number is the day its fields name. *)
Lemma MakeDay_of_fields (d : Z) :
  0 <= monthOfDay d < 12
  /\ 1 <= dateOfDay d <= daysInMonth (YearFromDay d) (monthOfDay d)
  /\ MakeDay (YearFromDay d) (monthOfDay d) (dateOfDay d) = d.
Proof.
  pose proof (YearFromDay_spec d) as Hs. rewrite DayFromYear_succ in Hs.
  unfold monthOfDay, dateOfDay, DateFromTime, MonthFromTime, InLeapYear,
    DayWithinYear, YearFromTime.
  rewrite Day_MakeDate by (unfold msPerDay; lia).
  set (y := YearFromDay d) in *.
  destruct (monthStart_monthOfYearDay y (d - DayFromYear y) ltac:(lia)) as [Hm Hdt].
  split; [exact Hm | split; [exact Hdt |]].
  rewrite MakeDay_in_year by exact Hm. lia.
Qed.

Lemma monthStart_range (leap mn : Z) :
  0 <= leap <= 1 -> 0 <= mn < 12 -> 0 <= monthStart leap mn <= 335.
Proof. intros Hl Hmn. month_cases mn; cbn [monthStart]; lia. Qed.

Lemma MakeDay_lex (y m d m' d' : Z) :
  0 <= m < 12 -> 1 <= d <= daysInMonth y m ->
  0 <= m' < 12 -> 1 <= d' <= daysInMonth y m' ->
  (MakeDay y m d <? MakeDay y m' d') = dateBefore m d m' d'.
Proof.
  intros Hm Hd Hm' Hd'. rewrite !MakeDay_in_year by assumption.
  set (leap := if isLeapYear y then 1 else 0).
  assert (Hiff : monthStart leap m + d < monthStart leap m' + d'
                 <-> m < m' \/ (m = m' /\ d < d')).
  { unfold daysInMonth, leap in *.
    destruct (isLeapYear y); month_cases m; month_cases m';
      cbn [monthStart] in *; lia. }
  unfold dateBefore.
  destruct (Z.ltb_spec (DayFromYear y + monthStart leap m + d - 1)
                       (DayFromYear y + monthStart leap m' + d' - 1)),
    (Z.ltb_spec m m'), (Z.eqb_spec m m'), (Z.ltb_spec d d');
    cbn [orb andb]; try reflexivity; lia.
Qed.

Section DateObjects.
Context `{TimeZone}.

Lemma LocalTime_UTC (t : Z) : LocalTime (UTC t) = t.
Proof. unfold LocalTime, UTC. lia. Qed.

(** In the supported years the constructor builds the date it is asked
    for: nothing is clipped and the year is taken as given. *)
Lemma newDate_value (y mn dt : Z) :
  supportedYear y -> 0 <= mn <= 12 -> -40 <= dt <= 40 ->
  newDate y mn dt = Some (UTC (MakeDate (MakeDay y mn dt) 0)).
Proof.
  intros [Hy1 Hy2] Hmn Hdt. unfold newDate.
  replace ((0 <=? y) && (y <=? 99)) with false by
    (symmetry; apply andb_false_iff; right; apply Z.leb_gt; lia).
  unfold TimeClip.
  pose proof LocalTZA_bound as Htz.
  assert (Hday : -700000 <= MakeDay y mn dt <= 99999900).
  { unfold MakeDay.
    assert (Hq : mn / 12 = 0 /\ mn mod 12 = mn /\ mn < 12
                 \/ mn / 12 = 1 /\ mn mod 12 = 0 /\ mn = 12)
      by (Z.div_mod_to_equations; lia).
    assert (Hlo : DayFromYear 100 = -683003) by reflexivity.
    assert (Hhi : DayFromYear 275760 = 99999744) by reflexivity.
    pose proof (DayFromYear_mono 100 (y + mn / 12) ltac:(lia)).
    destruct Hq as [(Hq & Hr & Hlt) | (Hq & Hr & Hlt)]; rewrite Hq, Hr in *.
    - pose proof (DayFromYear_mono (y + 0 + 1) 275760 ltac:(lia)) as Hm.
      rewrite DayFromYear_succ in Hm.
      pose proof (monthStart_range (if isLeapYear (y + 0) then 1 else 0) mn
                    ltac:(destruct (isLeapYear (y + 0)); lia) ltac:(lia)).
      destruct (isLeapYear_cases (y + 0)) as [[_ Hd] | [_ Hd]]; rewrite Hd in Hm; lia.
    - pose proof (DayFromYear_mono (y + 1) 275760 ltac:(lia)).
      cbn [monthStart]. destruct (isLeapYear (y + 1)); lia. }
  destruct (Z.leb_spec (Z.abs (UTC (MakeDate (MakeDay y mn dt) 0))) 8640000000000000)
    as [_ | Hbad]; [reflexivity |].
  unfold UTC, MakeDate, msPerDay in Hbad. lia.
Qed.
End DateObjects.

Section DateFields.
Context `{TimeZone}.

Lemma getters_value (t : Z) :
  getFullYear (Some (UTC t)) = Some (YearFromDay (Day t))
  /\ getMonth (Some (UTC t)) = Some (monthOfDay (Day t))
  /\ getDate (Some (UTC t)) = Some (dateOfDay (Day t)).
Proof.
  unfold getFullYear, getMonth, getDate; cbn [option_map].
  rewrite LocalTime_UTC.
  destruct (fields_of_day t) as (-> & -> & ->). auto.
Qed.

Lemma getters_newDate (y mn dt : Z) :
  supportedYear y -> 0 <= mn < 12 -> 1 <= dt <= daysInMonth y mn ->
  getFullYear (newDate y mn dt) = Some y
  /\ getMonth (newDate y mn dt) = Some mn
  /\ getDate (newDate y mn dt) = Some dt.
Proof.
  intros Hy Hmn Hdt.
  assert (Hdim : daysInMonth y mn <= 31)
    by (unfold daysInMonth; destruct (isLeapYear y); month_cases mn; lia).
  rewrite newDate_value by (auto; lia).
  destruct (getters_value (MakeDate (MakeDay y mn dt) 0)) as (-> & -> & ->).
  rewrite Day_MakeDate by (unfold msPerDay; lia).
  destruct (fields_of_MakeDay y mn dt Hmn Hdt) as (-> & -> & ->). auto.
Qed.

(** Day 0 of the next month is the last day of the month: how the code
    counts the days of a month. *)
Lemma MakeDay_last_day (y m : Z) :
  0 <= m < 12 -> MakeDay y (m + 1) 0 = MakeDay y m (daysInMonth y m).
Proof.
  intros Hm. destruct (Z.eq_dec m 11) as [-> | Hne].
  - rewrite (MakeDay_in_year y 11) by lia. unfold MakeDay.
    change ((11 + 1) / 12) with 1. change ((11 + 1) mod 12) with 0.
    rewrite DayFromYear_succ. unfold DaysInYear, daysInMonth.
    destruct (isLeapYear y), (isLeapYear (y + 1)); cbn [monthStart]; lia.
  - rewrite !MakeDay_in_year by lia. unfold daysInMonth.
    destruct (isLeapYear y); month_cases m;
      match goal with
      | |- context [monthStart _ (?a + 1)] =>
          let v := eval compute in (a + 1) in change (a + 1) with v
      end; cbn [monthStart]; lia.
Qed.

Lemma daysInMonth_range (y m : Z) : 0 <= m < 12 -> 28 <= daysInMonth y m <= 31.
Proof.
  intros Hm. unfold daysInMonth. destruct (isLeapYear y); month_cases m; lia.
Qed.

Lemma getDate_last_day (y m : Z) :
  supportedYear y -> 0 <= m < 12 ->
  getDate (newDate y (m + 1) 0) = Some (daysInMonth y m).
Proof.
  intros Hy Hm. pose proof (daysInMonth_range y m Hm).
  rewrite newDate_value by (auto; lia).
  rewrite MakeDay_last_day by exact Hm.
  rewrite <- (newDate_value y m (daysInMonth y m)) by (auto; lia).
  apply getters_newDate; auto; lia.
Qed.

(** The local fields of a valid date name its day. *)
Lemma fields_of_date (tv y : Z) :
  getFullYear (Some tv) = Some y ->
  exists tm td,
    getMonth (Some tv) = Some tm /\ getDate (Some tv) = Some td
    /\ 0 <= tm < 12 /\ 1 <= td <= daysInMonth y tm
    /\ MakeDay y tm td = Day (LocalTime tv).
Proof.
  unfold getFullYear, getMonth, getDate; cbn [option_map]. intros [= Hy].
  destruct (fields_of_day (LocalTime tv)) as (Hyear & Hmonth & Hdate).
  rewrite Hyear in Hy.
  destruct (MakeDay_of_fields (Day (LocalTime tv))) as (Hm & Hd & Hmk).
  rewrite Hy in *. rewrite Hmonth, Hdate. eauto 8.
Qed.

Lemma afterCutoff_hour (now : JSDate) (hh : Z) :
  getHours now = Some hh -> afterCutoff now = (AUTO_SAFE_HOUR <=? hh).
Proof.
  intros Hh. unfold afterCutoff. rewrite Hh.
  destruct now as [tv |]; [| discriminate].
  unfold getMinutes, MinFromTime, num_gt, num_lt, num_eq, num_ge; cbn [option_map].
  assert (0 <= (LocalTime tv / msPerMinute) mod 60)
    by (apply Z.mod_pos_bound; lia).
  unfold AUTO_SAFE_HOUR.
  destruct (Z.ltb_spec 16 hh), (Z.eqb_spec hh 16), (Z.leb_spec 16 hh),
    (Z.leb_spec 0 ((LocalTime tv / msPerMinute) mod 60)); cbn [orb andb];
    try reflexivity; lia.
Qed.

(** On the days of a calendar of the year, the test the code makes is
    the one the specification words. *)
Lemma autoSafeDue_rolledOver (now : JSDate) (yr tm td hh : Z) (m : nat)
    (dd : DailyStatistic) :
  supportedYear yr -> getFullYear now = Some yr ->
  getMonth now = Some tm -> getDate now = Some td -> getHours now = Some hh ->
  (m < 12)%nat -> 1 <= day dd <= daysInMonth yr (Z.of_nat m) ->
  (if autoSafeDue now yr m dd then Some safe else status dd)
  = rolledOver tm td hh m dd.
Proof.
  intros Hy Hnow Htm Htd Hhh Hm Hdd.
  unfold autoSafeDue, rolledOver.
  destruct (status dd) as [s |]; [reflexivity |].
  destruct now as [tv |]; [| discriminate].
  destruct (fields_of_date tv yr Hnow) as (tm' & td' & Htm' & Htd' & Hr1 & Hr2 & _).
  rewrite Htm in Htm'. rewrite Htd in Htd'.
  injection Htm' as <-. injection Htd' as <-.
  rewrite Htm, Htd, (afterCutoff_hour _ _ Hhh). cbn [newDateN].
  pose proof (daysInMonth_range yr (Z.of_nat m) ltac:(lia)).
  pose proof (daysInMonth_range yr tm ltac:(lia)).
  rewrite !newDate_value by (auto; lia).
  unfold num_lt, num_eq, UTC, MakeDate.
  rewrite <- (MakeDay_lex yr (Z.of_nat m) (day dd) tm td) by lia.
  replace (MakeDay yr (Z.of_nat m) (day dd) * msPerDay + 0 - LocalTZA
           <? MakeDay yr tm td * msPerDay + 0 - LocalTZA)
    with (MakeDay yr (Z.of_nat m) (day dd) <? MakeDay yr tm td).
  2:{ unfold msPerDay.
      destruct (Z.ltb_spec (MakeDay yr (Z.of_nat m) (day dd)) (MakeDay yr tm td)),
        (Z.ltb_spec (MakeDay yr (Z.of_nat m) (day dd) * 86400000 + 0 - LocalTZA)
                    (MakeDay yr tm td * 86400000 + 0 - LocalTZA));
        try reflexivity; lia. }
  destruct (MakeDay yr (Z.of_nat m) (day dd) <? MakeDay yr tm td); cbn [orb];
    [reflexivity |].
  rewrite (andb_comm (AUTO_SAFE_HOUR <=? hh)), <- andb_assoc.
  rewrite (andb_comm (AUTO_SAFE_HOUR <=? hh)), andb_assoc.
  reflexivity.
Qed.
End DateFields.

(* ------------------------------------------------------------------ *)
(** ** applyAutoSafe                                                    *)
(* ------------------------------------------------------------------ *)

Section AutoSafe.
Context `{TimeZone}.
Variables (prev : list MonthlyData) (now : JSDate) (yr : Z).

Lemma copyDay_id (dd : DailyStatistic) : copyDay dd = dd.
Proof. destruct dd; reflexivity. Qed.

Lemma copyMonth_id (mm : MonthlyData) : copyMonth mm = mm.
Proof.
  destruct mm as [mo ye ds]; unfold copyMonth; cbn. f_equal.
  induction ds as [| dd ds IH]; cbn; [reflexivity |].
  rewrite copyDay_id. f_equal. exact IH.
Qed.

Lemma deepCopy_id (c : list MonthlyData) : deepCopy c = c.
Proof.
  unfold deepCopy. induction c as [| mm c IH]; cbn; [reflexivity |].
  rewrite copyMonth_id. f_equal. exact IH.
Qed.

(** The day the loop leaves behind in place of [dd]. *)
Let upd (m : nat) (dd : DailyStatistic) : DailyStatistic :=
  if autoSafeDue now yr m dd then assignStatus (Some safe) dd else dd.

Let updMonth (m : nat) (mm : MonthlyData) : MonthlyData :=
  {| month := month mm; year := year mm; days := map (upd m) (days mm) |}.

(** [changed] is set exactly when [next] has been created. *)
Let flagsOk (v : AutoSafeVars) : Prop :=
  changed v = match next v with Some _ => true | None => false end.

Lemma autoSafeDay_due (m i : nat) (dd : DailyStatistic) (v : AutoSafeVars) :
  autoSafeDay prev now yr m i dd v
  = if autoSafeDue now yr m dd then markSafe prev m i v else v.
Proof.
  unfold autoSafeDay, autoSafeDue. destruct (status dd); [reflexivity |].
  destruct (num_lt _ _); [reflexivity |]. cbn [orb]. reflexivity.
Qed.

Lemma setStatusAt_middle (s : DayStatus) (cpre cpost : list MonthlyData)
    (mo ye : Z) (dpre dpost : list DailyStatistic) (dd : DailyStatistic) :
  setStatusAt (length cpre) (length dpre) s
    (cpre ++ {| month := mo; year := ye; days := dpre ++ dd :: dpost |} :: cpost)
  = cpre ++ {| month := mo; year := ye;
               days := dpre ++ assignStatus s dd :: dpost |} :: cpost.
Proof.
  unfold setStatusAt.
  rewrite alter_app_r_alt by reflexivity. rewrite Nat.sub_diag. cbn.
  rewrite alter_app_r_alt by reflexivity. rewrite Nat.sub_diag. reflexivity.
Qed.

Lemma autoSafeDays_spec (m : nat) (cpre cpost : list MonthlyData) (mo ye : Z) :
  length cpre = m ->
  forall (dds dpre : list DailyStatistic) (v : AutoSafeVars),
    ensureNext prev v
    = cpre ++ {| month := mo; year := ye; days := dpre ++ dds |} :: cpost ->
    flagsOk v ->
    let v' := autoSafeDays prev now yr m (length dpre) dds v in
    ensureNext prev v'
    = cpre ++ {| month := mo; year := ye; days := dpre ++ map (upd m) dds |} :: cpost
    /\ changed v' = changed v || existsb (autoSafeDue now yr m) dds
    /\ flagsOk v'.
Proof.
  intros Hm. induction dds as [| dd dds IH]; intros dpre v Hcur Hflags; cbn zeta.
  - cbn. rewrite orb_false_r. auto.
  - cbn [autoSafeDays map existsb]. rewrite autoSafeDay_due.
    replace (S (length dpre)) with (length (dpre ++ [upd m dd]))
      by (rewrite length_app; cbn; lia).
    replace (dpre ++ upd m dd :: map (upd m) dds)
      with ((dpre ++ [upd m dd]) ++ map (upd m) dds)
      by (rewrite <- app_assoc; reflexivity).
    assert (Hu : upd m dd = if autoSafeDue now yr m dd
                            then assignStatus (Some safe) dd else dd) by reflexivity.
    destruct (autoSafeDue now yr m dd) eqn:Hdue; rewrite Hu.
    + destruct (IH (dpre ++ [assignStatus (Some safe) dd]) (markSafe prev m (length dpre) v))
        as (Hc & Hch & Hf).
      * unfold markSafe, ensureNext at 1; cbn [next].
        fold (ensureNext prev v). rewrite Hcur, <- Hm, setStatusAt_middle.
        rewrite <- app_assoc. reflexivity.
      * reflexivity.
      * split; [exact Hc | split; [| exact Hf]].
        rewrite Hch. cbn [markSafe changed orb]. rewrite orb_true_r. reflexivity.
    + destruct (IH (dpre ++ [dd]) v) as (Hc & Hch & Hf).
      * rewrite Hcur, <- app_assoc. reflexivity.
      * exact Hflags.
      * split; [exact Hc | split; [| exact Hf]].
        rewrite Hch. reflexivity.
Qed.

Lemma autoSafeMonths_spec (n k : nat) (v : AutoSafeVars) :
  ensureNext prev v = imap updMonth (take k prev) ++ drop k prev ->
  changed v
  = existsb (fun b : bool => b)
      (imap (fun m mm => existsb (autoSafeDue now yr m) (days mm)) (take k prev)) ->
  flagsOk v ->
  let v' := autoSafeMonths prev now yr (seq k n) v in
  ensureNext prev v' = imap updMonth (take (k + n) prev) ++ drop (k + n) prev
  /\ changed v'
     = existsb (fun b : bool => b)
         (imap (fun m mm => existsb (autoSafeDue now yr m) (days mm))
               (take (k + n) prev))
  /\ flagsOk v'.
Proof.
  revert k v. induction n as [| n IH]; intros k v Hcur Hch Hflags; cbn zeta.
  - cbn. rewrite Nat.add_0_r. auto.
  - cbn [seq autoSafeMonths]. replace (k + S n)%nat with (S k + n)%nat by lia.
    destruct (prev !! k) as [mm |] eqn:Hk.
    + destruct mm as [mo ye ds].
      destruct (autoSafeDays_spec k (imap updMonth (take k prev)) (drop (S k) prev)
                  mo ye) with (dds := ds) (dpre := @nil DailyStatistic) (v := v)
        as (Hc & Hch' & Hf).
      * rewrite length_imap, length_take. apply lookup_lt_Some in Hk. lia.
      * rewrite Hcur. rewrite (drop_S _ _ _ Hk). reflexivity.
      * exact Hflags.
      * cbn [app length] in Hc, Hch'. cbn [days]. apply IH.
        -- rewrite Hc. rewrite (take_S_r _ _ _ Hk), imap_app. cbn [imap].
           rewrite length_take, Nat.min_l, Nat.add_0_r
             by (apply lookup_lt_Some in Hk; lia).
           rewrite <- app_assoc. reflexivity.
        -- rewrite Hch', Hch. rewrite (take_S_r _ _ _ Hk), imap_app, existsb_app.
           cbn [imap existsb days]. 
           rewrite length_take, Nat.min_l, Nat.add_0_r
             by (apply lookup_lt_Some in Hk; lia).
           rewrite orb_false_r. reflexivity.
        -- exact Hf.
    + apply lookup_ge_None in Hk. apply IH.
      * rewrite Hcur. rewrite !take_ge, !drop_ge by lia. reflexivity.
      * rewrite Hch. rewrite !take_ge by lia. reflexivity.
      * exact Hflags.
Qed.
End AutoSafe.

Section AutoSafeResult.
Context `{TimeZone}.

Lemma mapStatuses_take_drop (f : nat -> DailyStatistic -> DayStatus)
    (c : list MonthlyData) :
  mapStatuses f c
  = imap (fun m mm => {| month := month mm; year := year mm;
                         days := map (fun dd => {| day := day dd; status := f m dd |})
                                     (days mm) |}) (take 12 c)
    ++ drop 12 c.
Proof.
  unfold mapStatuses. rewrite <- (take_drop 12 c) at 1. rewrite imap_app. f_equal.
  - apply imap_ext. intros i mm Hi. apply lookup_lt_Some in Hi.
    rewrite length_take in Hi.
    destruct (Nat.ltb_spec i 12); [reflexivity | lia].
  - destruct (Nat.le_gt_cases (length c) 12) as [Hle | Hgt].
    + rewrite drop_ge by exact Hle. reflexivity.
    + rewrite length_take, Nat.min_l by lia.
      transitivity (imap (fun _ mm => mm) (drop 12 c)).
      * apply imap_ext. intros i mm _.
        destruct (Nat.ltb_spec (12 + i) 12); [lia | reflexivity].
      * rewrite (imap_const (fun mm : MonthlyData => mm)). apply list_fmap_id.
Qed.

(** What [applyAutoSafe] returns, reference and value. *)
Lemma applyAutoSafe_ref_result (prev : list MonthlyData) (now : JSDate) (yr : Z) :
  getFullYear now = Some yr ->
  applyAutoSafe_ref prev now yr
  = (if anyDue now yr prev then ReturnNext (mapStatuses (autoSafeStatus now yr) prev)
     else ReturnPrev)
  /\ applyAutoSafe prev now yr = mapStatuses (autoSafeStatus now yr) prev.
Proof.
  intros Hyear. unfold applyAutoSafe, applyAutoSafe_ref.
  replace (num_ne (getFullYear now) (Some yr)) with false
    by (rewrite Hyear; unfold num_ne, num_eq; rewrite Z.eqb_refl; reflexivity).
  destruct (autoSafeMonths_spec prev now yr 12 0 {| next := None; changed := false |})
    as (Hcur & Hch & Hflags).
  { unfold ensureNext; cbn [next]. rewrite deepCopy_id. reflexivity. }
  { reflexivity. }
  { reflexivity. }
  cbn [Nat.add] in Hcur, Hch. fold (anyDue now yr prev) in Hch.
  set (v := autoSafeMonths prev now yr (seq 0 12) _) in *.
  assert (Hmap : ensureNext prev v = mapStatuses (autoSafeStatus now yr) prev).
  { rewrite Hcur, mapStatuses_take_drop. f_equal. apply imap_ext.
    intros m [mo ye ds] _. cbn. f_equal. apply map_ext. intros dd.
    unfold autoSafeStatus. destruct (autoSafeDue now yr m dd); [reflexivity |].
    destruct dd; reflexivity. }
  rewrite <- Hch, <- Hmap. unfold ensureNext. rewrite Hflags.
  destruct (next v) as [n |]; cbn [returned]; [auto |].
  split; [reflexivity | symmetry; apply deepCopy_id].
Qed.

Lemma applyAutoSafe_other_year (prev : list MonthlyData) (now : JSDate) (yr : Z) :
  getFullYear now <> Some yr ->
  applyAutoSafe_ref prev now yr = ReturnPrev /\ applyAutoSafe prev now yr = prev.
Proof.
  intros Hne. unfold applyAutoSafe, applyAutoSafe_ref.
  replace (num_ne (getFullYear now) (Some yr)) with true; [auto |].
  unfold num_ne, num_eq. destruct (getFullYear now) as [y |]; [| reflexivity].
  destruct (Z.eqb_spec y yr); [congruence | reflexivity].
Qed.

Lemma createYearData_lookup (yr : Z) (m : nat) :
  supportedYear yr -> (m < 12)%nat ->
  createYearData yr !! m
  = Some {| month := Z.of_nat m; year := yr;
            days := map (fun i : nat => {| day := Z.of_nat i + 1; status := None |})
                        (seq 0 (Z.to_nat (daysInMonth yr (Z.of_nat m)))) |}.
Proof.
  intros Hy Hm. unfold createYearData.
  rewrite list_lookup_fmap, lookup_seq_lt by exact Hm. cbn [fmap option_fmap option_map Nat.add].
  rewrite getDate_last_day by (auto; lia). reflexivity.
Qed.

Lemma createYearData_length (yr : Z) : length (createYearData yr) = 12%nat.
Proof. reflexivity. Qed.

(** The days of a calendar of the year are numbered 1, 2, ... up to the
    length of their month. *)
Lemma isYearCalendar_day (yr : Z) (c : list MonthlyData) (m i : nat)
    (mm : MonthlyData) (dd : DailyStatistic) :
  supportedYear yr -> isYearCalendar yr c ->
  c !! m = Some mm -> days mm !! i = Some dd ->
  (m < 12)%nat /\ day dd = Z.of_nat i + 1
  /\ Z.of_nat i < daysInMonth yr (Z.of_nat m).
Proof.
  intros Hy Hc Hm Hi. unfold isYearCalendar in Hc.
  assert (Hlen : length c = 12%nat).
  { rewrite <- (createYearData_length yr), <- Hc. unfold clearStatuses.
    rewrite length_map. reflexivity. }
  assert (Hm12 : (m < 12)%nat) by (apply lookup_lt_Some in Hm; lia).
  split; [exact Hm12 |].
  assert (Hl : clearStatuses c !! m = createYearData yr !! m) by (rewrite Hc; reflexivity).
  unfold clearStatuses in Hl. rewrite list_lookup_fmap, Hm in Hl.
  rewrite createYearData_lookup in Hl by assumption.
  cbn [fmap option_fmap option_map] in Hl. injection Hl as _ _ Hdays.
  assert (Hd : map (fun dd => {| day := day dd; status := None |}) (days mm) !! i
               = map (fun i : nat => {| day := Z.of_nat i + 1; status := None |})
                     (seq 0 (Z.to_nat (daysInMonth yr (Z.of_nat m)))) !! i)
    by (rewrite Hdays; reflexivity).
  change (@map) with (@fmap list _) in Hd.
  rewrite !list_lookup_fmap, Hi in Hd. cbn [fmap option_fmap option_map] in Hd.
  destruct (seq 0 (Z.to_nat (daysInMonth yr (Z.of_nat m))) !! i) as [j |] eqn:Hj;
    [| discriminate].
  apply lookup_seq in Hj. destruct Hj as [-> Hlt]. cbn [Nat.add] in Hd.
  injection Hd as Hday. split; [exact Hday | lia].
Qed.
Lemma isYearCalendar_dated (yr : Z) (c : list MonthlyData) :
  supportedYear yr -> isYearCalendar yr c -> datedCalendar yr c.
Proof.
  intros Hy Hc. split.
  - assert (Hlen : length (clearStatuses c) = 12%nat)
      by (rewrite Hc; apply createYearData_length).
    unfold clearStatuses in Hlen. rewrite length_map in Hlen. lia.
  - intros m i mm dd Hm Hi.
    destruct (isYearCalendar_day yr c m i mm dd Hy Hc Hm Hi) as (_ & Hday & Hlt).
    lia.
Qed.
End AutoSafeResult.

Section AutoSafeClaims.
Context `{TimeZone}.

Lemma autoSafeDue_settled (now : JSDate) (yr : Z) (m : nat) (dd : DailyStatistic) :
  autoSafeDue now yr m {| day := day dd; status := autoSafeStatus now yr m dd |}
  = false.
Proof.
  unfold autoSafeStatus. destruct (autoSafeDue now yr m dd) eqn:Hdue; [reflexivity |].
  destruct dd as [d s]. exact Hdue.
Qed.

Lemma mapStatuses_lookup (f : nat -> DailyStatistic -> DayStatus)
    (c : list MonthlyData) (m : nat) :
  (m < 12)%nat ->
  mapStatuses f c !! m
  = (fun mm => {| month := month mm; year := year mm;
                  days := map (fun dd => {| day := day dd; status := f m dd |})
                              (days mm) |}) <$> c !! m.
Proof.
  intros Hm. unfold mapStatuses. rewrite list_lookup_imap.
  destruct (c !! m) as [mm |]; [| reflexivity].
  destruct (Nat.ltb_spec m 12); [reflexivity | lia].
Qed.

Lemma mapStatuses_compose (f g : nat -> DailyStatistic -> DayStatus)
    (c : list MonthlyData) :
  mapStatuses f (mapStatuses g c)
  = mapStatuses (fun m dd => f m {| day := day dd; status := g m dd |}) c.
Proof.
  unfold mapStatuses. apply list_eq. intros m. rewrite !list_lookup_imap.
  destruct (c !! m) as [mm |]; [| reflexivity].
  destruct (Nat.ltb_spec m 12); [| reflexivity].
  cbn [fmap option_fmap option_map month year days]. f_equal. f_equal.
  rewrite map_map. reflexivity.
Qed.

(** A day that passes the test, when one does. *)
Lemma anyDue_true (now : JSDate) (yr : Z) (c : list MonthlyData) :
  anyDue now yr c = true ->
  exists (m i : nat) (mm : MonthlyData) (dd : DailyStatistic),
    (m < 12)%nat /\ c !! m = Some mm /\ days mm !! i = Some dd
    /\ autoSafeDue now yr m dd = true.
Proof.
  unfold anyDue. intros Hany. apply existsb_exists in Hany.
  destruct Hany as (b & Hin & ->).
  apply list_elem_of_In, elem_of_lookup_imap_1 in Hin.
  destruct Hin as (m & mm & Hb & Hm). symmetry in Hb.
  apply existsb_exists in Hb. destruct Hb as (dd & Hdd & Hdue).
  apply list_elem_of_In, list_elem_of_lookup in Hdd. destruct Hdd as [i Hi].
  exists m, i, mm, dd. rewrite lookup_take_Some in Hm. tauto.
Qed.

Lemma anyDue_settled (now : JSDate) (yr : Z) (c : list MonthlyData) :
  anyDue now yr (mapStatuses (autoSafeStatus now yr) c) = false.
Proof.
  destruct (anyDue now yr _) eqn:Hany; [exfalso | reflexivity].
  apply anyDue_true in Hany. destruct Hany as (m & i & mm' & dd' & Hm & Hmm & Hi & Hdue).
  rewrite mapStatuses_lookup in Hmm by exact Hm.
  destruct (c !! m) as [mm |]; [| discriminate]. injection Hmm as <-. cbn [days] in Hi.
  change (@map) with (@fmap list _) in Hi. rewrite list_lookup_fmap in Hi.
  destruct (days mm !! i) as [dd |]; [| discriminate]. injection Hi as <-.
  rewrite autoSafeDue_settled in Hdue. discriminate.
Qed.

(** C3: in the year of [now], [applyAutoSafe] sets to safe exactly the
    unset days whose date is before today, and today itself from the
    16:00 cutoff on; every other day keeps its status, unset or decided.
    When the year of [now] is another one, the calendar comes back as it
    was. *)
Theorem applyAutoSafe_rollover (prev : list MonthlyData) (now : JSDate) (yr : Z) :
  (getFullYear now <> Some yr -> applyAutoSafe prev now yr = prev)
  /\ (forall tm td hh : Z,
        supportedYear yr -> isYearCalendar yr prev ->
        getFullYear now = Some yr -> getMonth now = Some tm ->
        getDate now = Some td -> getHours now = Some hh ->
        applyAutoSafe prev now yr = mapStatuses (rolledOver tm td hh) prev).
Proof.
  split.
  - intros Hne. apply applyAutoSafe_other_year. exact Hne.
  - intros tm td hh Hy Hcal Hyear Htm Htd Hhh.
    rewrite (proj2 (applyAutoSafe_ref_result prev now yr Hyear)).
    unfold mapStatuses. apply imap_ext. intros m mm Hm.
    destruct (Nat.ltb_spec m 12) as [Hm12 |]; [| reflexivity].
    f_equal. apply map_ext_in. intros dd Hdd.
    apply list_elem_of_In, list_elem_of_lookup in Hdd. destruct Hdd as [i Hi].
    destruct (isYearCalendar_day yr prev m i mm dd Hy Hcal Hm Hi) as (_ & Hday & Hlt).
    f_equal. unfold autoSafeStatus.
    apply autoSafeDue_rolledOver; auto; lia.
Qed.

(** C4: [applyAutoSafe] is idempotent; applied a second time with the
    same [now] it returns the reference it was given; and whenever no
    status changed it returns the reference it was given. *)
Theorem applyAutoSafe_idempotent (prev : list MonthlyData) (now : JSDate) (yr : Z) :
  applyAutoSafe (applyAutoSafe prev now yr) now yr = applyAutoSafe prev now yr
  /\ applyAutoSafe_ref (applyAutoSafe prev now yr) now yr = ReturnPrev
  /\ (statuses (applyAutoSafe prev now yr) = statuses prev ->
      applyAutoSafe_ref prev now yr = ReturnPrev).
Proof.
  destruct (decide (getFullYear now = Some yr)) as [Hyear | Hne].
  - destruct (applyAutoSafe_ref_result prev now yr Hyear) as [Href Hval].
    rewrite Hval.
    destruct (applyAutoSafe_ref_result (mapStatuses (autoSafeStatus now yr) prev)
                now yr Hyear) as [Href2 Hval2].
    rewrite Hval2, Href2, anyDue_settled, mapStatuses_compose.
    split; [| split; [reflexivity |]].
    + unfold mapStatuses. apply imap_ext. intros m mm _.
      destruct (m <? 12)%nat; [| reflexivity]. f_equal. apply map_ext. intros dd.
      f_equal. unfold autoSafeStatus at 1. rewrite autoSafeDue_settled. reflexivity.
    + intros Hsame. rewrite Href.
      destruct (anyDue now yr prev) eqn:Hany; [exfalso | reflexivity].
      apply anyDue_true in Hany.
      destruct Hany as (m & i & mm & dd & Hm & Hmm & Hi & Hdue).
      assert (Hs : statuses (mapStatuses (autoSafeStatus now yr) prev) !! m
                     ≫= (fun l => l !! i)
                   = statuses prev !! m ≫= (fun l => l !! i))
        by (rewrite Hsame; reflexivity).
      unfold statuses in Hs. change (@map) with (@fmap list _) in Hs.
      rewrite !list_lookup_fmap, mapStatuses_lookup, Hmm in Hs by exact Hm.
      cbn in Hs. change (@map) with (@fmap list _) in Hs.
      rewrite !list_lookup_fmap, Hi in Hs. cbn in Hs.
      unfold autoSafeStatus in Hs. rewrite Hdue in Hs.
      unfold autoSafeDue in Hdue. destruct (status dd); discriminate.
  - destruct (applyAutoSafe_other_year prev now yr Hne) as [Href Hval].
    rewrite Hval, Href. auto.
Qed.
End AutoSafeClaims.

(** The rollover of the fresh calendar of 2026 on 15 March 2026 at 10:00. *)
Lemma applyAutoSafe_rollover_witness :
  supportedYear 2026
  /\ datedCalendar 2026 (createYearData 2026)
  /\ getFullYear (newDateTime 2026 2 15 10 0) = Some 2026
  /\ getMonth (newDateTime 2026 2 15 10 0) = Some 2
  /\ getDate (newDateTime 2026 2 15 10 0) = Some 15
  /\ getHours (newDateTime 2026 2 15 10 0) = Some 10
  /\ applyAutoSafe (createYearData 2026) (newDateTime 2026 2 15 10 0) 2026
     = mapStatuses (rolledOver 2 15 10) (createYearData 2026).
Proof.
  assert (Hy : supportedYear 2026) by (unfold supportedYear; lia).
  assert (Hc : datedCalendar 2026 (createYearData 2026))
    by (apply isYearCalendar_dated; [exact Hy | reflexivity]).
  repeat (split; [first [assumption | reflexivity] |]).
  apply (proj2 (applyAutoSafe_rollover (createYearData 2026)
                  (newDateTime 2026 2 15 10 0) 2026));
    first [assumption | reflexivity].
Defined.

(* ------------------------------------------------------------------ *)
(** ** setDayStatus and cycleDayStatus                                  *)
(* ------------------------------------------------------------------ *)

Lemma alter_insert {A : Type} (f : A -> A) (l : list A) (i : nat) (x : A) :
  l !! i = Some x -> alter f i l = <[i := f x]> l.
Proof.
  revert i. induction l as [| y l IH]; intros [| i] Hi; try discriminate.
  - injection Hi as ->. reflexivity.
  - cbn. f_equal. apply IH. exact Hi.
Qed.

Lemma js_index_Some {A : Type} (a : list A) (i : Z) (x : A) :
  js_index a i = Some x <-> 0 <= i /\ a !! Z.to_nat i = Some x.
Proof.
  unfold js_index. destruct (Z.leb_spec 0 i); split; intros Hx;
    try tauto; try discriminate; destruct Hx; lia.
Qed.

Section SetDayStatus.
Context `{TimeZone}.

(** In range, [setDayStatus] replaces one day. *)
Lemma setDayStatus_ref_in_range (displayMonth day_ : Z) (s : DayStatus)
    (prev : list MonthlyData) (mm : MonthlyData) (dd : DailyStatistic) :
  js_index prev displayMonth = Some mm ->
  js_index (days mm) (day_ - 1) = Some dd ->
  setDayStatus_ref displayMonth day_ s prev
  = ReturnNext
      (<[Z.to_nat displayMonth :=
           {| month := month mm; year := year mm;
              days := <[Z.to_nat (day_ - 1) := {| day := day dd; status := s |}]>
                        (days mm) |}]> prev).
Proof.
  intros Hm Hd. unfold setDayStatus_ref. rewrite deepCopy_id, Hm, Hd.
  apply js_index_Some in Hm, Hd. destruct Hm as [_ Hm], Hd as [_ Hd].
  unfold setStatusAt. rewrite (alter_insert _ _ _ _ Hm).
  rewrite (alter_insert _ _ _ _ Hd). reflexivity.
Qed.

Lemma setDayStatus_ref_out_of_range (displayMonth day_ : Z) (s : DayStatus)
    (prev : list MonthlyData) :
  (js_index prev displayMonth = None
   \/ exists mm, js_index prev displayMonth = Some mm
                 /\ js_index (days mm) (day_ - 1) = None) ->
  setDayStatus_ref displayMonth day_ s prev = ReturnPrev.
Proof.
  unfold setDayStatus_ref. rewrite deepCopy_id.
  intros [Hm | (mm & Hm & Hd)]; rewrite Hm; [reflexivity |].
  rewrite Hd. reflexivity.
Qed.

(** C6: with a month index and a day in range, [setDayStatus] returns a
    new calendar in which that day has the given status, every other
    day is the day it was, and the month and year fields and the day
    numbers are what they were; out of range it throws nothing and
    returns the calendar it was given. *)
Theorem setDayStatus_frame (displayMonth day_ : Z) (s : DayStatus)
    (prev : list MonthlyData) :
  (forall (mm : MonthlyData) (dd : DailyStatistic),
      js_index prev displayMonth = Some mm ->
      js_index (days mm) (day_ - 1) = Some dd ->
      let r := setDayStatus displayMonth day_ s prev in
      setDayStatus_ref displayMonth day_ s prev = ReturnNext r
      /\ dayAt r (Z.to_nat displayMonth) (Z.to_nat (day_ - 1))
         = Some {| day := day dd; status := s |}
      /\ (forall m i : nat,
             (m, i) <> (Z.to_nat displayMonth, Z.to_nat (day_ - 1)) ->
             dayAt r m i = dayAt prev m i)
      /\ frame r = frame prev)
  /\ ((js_index prev displayMonth = None
       \/ exists mm, js_index prev displayMonth = Some mm
                     /\ js_index (days mm) (day_ - 1) = None) ->
      setDayStatus_ref displayMonth day_ s prev = ReturnPrev
      /\ setDayStatus displayMonth day_ s prev = prev).
Proof.
  split.
  - intros mm dd Hm Hd. cbn zeta. unfold setDayStatus.
    rewrite (setDayStatus_ref_in_range _ _ _ _ _ _ Hm Hd). cbn [returned].
    apply js_index_Some in Hm, Hd. destruct Hm as [_ Hm], Hd as [_ Hd].
    set (m0 := Z.to_nat displayMonth) in *. set (i0 := Z.to_nat (day_ - 1)) in *.
    pose proof (lookup_lt_Some _ _ _ Hm) as Hlm.
    pose proof (lookup_lt_Some _ _ _ Hd) as Hld.
    split; [reflexivity | split; [| split]].
    + unfold dayAt. rewrite list_lookup_insert_eq by exact Hlm. cbn [days].
      apply list_lookup_insert_eq. exact Hld.
    + intros m i Hne. unfold dayAt.
      destruct (decide (m = m0)) as [-> | Hm'].
      * rewrite list_lookup_insert_eq, Hm by exact Hlm. cbn [days].
        apply list_lookup_insert_ne. congruence.
      * rewrite list_lookup_insert_ne by congruence. reflexivity.
    + unfold frame. change (@map) with (@fmap list _).
      rewrite list_fmap_insert. apply list_insert_id.
      rewrite list_lookup_fmap, Hm. cbn [fmap option_fmap option_map month year days].
      do 2 f_equal. rewrite list_fmap_insert. symmetry. apply list_insert_id.
      rewrite list_lookup_fmap, Hd. reflexivity.
  - intros Hout. unfold setDayStatus.
    rewrite (setDayStatus_ref_out_of_range _ _ _ _ Hout). auto.
Qed.

Lemma nextDayStatus_cycle (s : DayStatus) :
  nextDayStatus (nextDayStatus (nextDayStatus (nextDayStatus s))) = s.
Proof. destruct s as [[| |] |]; reflexivity. Qed.

(** One click: the day's status moves one step along the cycle. *)
Lemma clickDay_in_range (displayMonth day_ : Z) (c : list MonthlyData)
    (mm : MonthlyData) (dd : DailyStatistic) :
  js_index c displayMonth = Some mm ->
  js_index (days mm) (day_ - 1) = Some dd ->
  clickDay displayMonth day_ c
  = <[Z.to_nat displayMonth :=
        {| month := month mm; year := year mm;
           days := <[Z.to_nat (day_ - 1) :=
                       {| day := day dd; status := nextDayStatus (status dd) |}]>
                     (days mm) |}]> c.
Proof.
  intros Hm Hd. unfold clickDay, cycleDayStatus, setDayStatus.
  rewrite (setDayStatus_ref_in_range _ _ _ _ _ _ Hm Hd). cbn [returned].
  unfold statusOf. rewrite Hm, Hd. reflexivity.
Qed.

Lemma clickDay_out_of_range (displayMonth day_ : Z) (c : list MonthlyData) :
  (js_index c displayMonth = None
   \/ exists mm, js_index c displayMonth = Some mm
                 /\ js_index (days mm) (day_ - 1) = None) ->
  clickDay displayMonth day_ c = c.
Proof.
  intros Hout. unfold clickDay, cycleDayStatus, setDayStatus.
  rewrite (setDayStatus_ref_out_of_range _ _ _ _ Hout). reflexivity.
Qed.

(** [n] clicks on a day in range. *)
Lemma clickDay_iterate (n : nat) (displayMonth day_ : Z) (c : list MonthlyData)
    (mm : MonthlyData) (dd : DailyStatistic) :
  js_index c displayMonth = Some mm ->
  js_index (days mm) (day_ - 1) = Some dd ->
  iterate n (clickDay displayMonth day_) c
  = <[Z.to_nat displayMonth :=
        {| month := month mm; year := year mm;
           days := <[Z.to_nat (day_ - 1) :=
                       {| day := day dd; status := iterate n nextDayStatus (status dd) |}]>
                     (days mm) |}]> c.
Proof.
  intros Hm Hd.
  pose proof Hm as Hm'. pose proof Hd as Hd'.
  apply js_index_Some in Hm', Hd'. destruct Hm' as [Hm0 Hm'], Hd' as [Hd0 Hd'].
  pose proof (lookup_lt_Some _ _ _ Hm') as Hlm.
  pose proof (lookup_lt_Some _ _ _ Hd') as Hld.
  induction n as [| n IH]; cbn [iterate].
  - symmetry. apply list_insert_id. rewrite Hm'. destruct mm as [mo ye ds].
    cbn [month year days] in *. do 2 f_equal. symmetry. apply list_insert_id.
    rewrite Hd'. destruct dd; reflexivity.
  - rewrite IH.
    rewrite (clickDay_in_range displayMonth day_ _
               {| month := month mm; year := year mm;
                  days := <[Z.to_nat (day_ - 1) :=
                              {| day := day dd;
                                 status := iterate n nextDayStatus (status dd) |}]>
                            (days mm) |}
               {| day := day dd; status := iterate n nextDayStatus (status dd) |}).
    + rewrite list_insert_insert_eq. cbn [month year days day status].
      rewrite list_insert_insert_eq. reflexivity.
    + apply js_index_Some. split; [exact Hm0 |].
      apply list_lookup_insert_eq. exact Hlm.
    + cbn [days]. apply js_index_Some. split; [exact Hd0 |].
      apply list_lookup_insert_eq. exact Hld.
Qed.

(** C8: the statuses cycle unset, safe, near miss, accident, unset; a
    click moves the clicked day one step along the cycle, and four
    clicks on the same day bring back the calendar as it was. *)
Theorem cycleDayStatus_four_times (displayMonth day_ : Z) (c : list MonthlyData) :
  nextDayStatus None = Some safe
  /\ nextDayStatus (Some safe) = Some near_miss
  /\ nextDayStatus (Some near_miss) = Some accident
  /\ nextDayStatus (Some accident) = None
  /\ (forall (mm : MonthlyData) (dd : DailyStatistic),
         js_index c displayMonth = Some mm ->
         js_index (days mm) (day_ - 1) = Some dd ->
         statusOf (clickDay displayMonth day_ c) (Some displayMonth) (Some day_)
         = nextDayStatus (status dd))
  /\ iterate 4 (clickDay displayMonth day_) c = c.
Proof.
  repeat (split; [reflexivity |]). split.
  - intros mm dd Hm Hd. rewrite (clickDay_in_range _ _ _ _ _ Hm Hd).
    apply js_index_Some in Hm, Hd. destruct Hm as [Hm0 Hm], Hd as [Hd0 Hd].
    unfold statusOf, js_index.
    destruct (Z.leb_spec 0 displayMonth); [| lia].
    rewrite list_lookup_insert_eq by (eapply lookup_lt_Some; exact Hm). cbn [days].
    destruct (Z.leb_spec 0 (day_ - 1)); [| lia].
    rewrite list_lookup_insert_eq by (eapply lookup_lt_Some; exact Hd). reflexivity.
  - destruct (js_index c displayMonth) as [mm |] eqn:Hm.
    + destruct (js_index (days mm) (day_ - 1)) as [dd |] eqn:Hd.
      * rewrite (clickDay_iterate 4 _ _ _ _ _ Hm Hd). cbn [iterate].
        rewrite nextDayStatus_cycle.
        apply js_index_Some in Hm, Hd. destruct Hm as [_ Hm], Hd as [_ Hd].
        apply list_insert_id. rewrite Hm. destruct mm as [mo ye ds].
        cbn [month year days] in *. do 2 f_equal. symmetry. apply list_insert_id.
        rewrite Hd. destruct dd; reflexivity.
      * cbn [iterate].
        rewrite !(clickDay_out_of_range displayMonth day_ c); eauto.
    + cbn [iterate].
      rewrite !(clickDay_out_of_range displayMonth day_ c); auto.
Qed.
End SetDayStatus.

(* ------------------------------------------------------------------ *)
(** ** Numbers                                                          *)
(* ------------------------------------------------------------------ *)

Lemma shr_1_nonneg (mrs : shr_record) : 0 <= shr_m mrs -> 0 <= shr_m (shr_1 mrs).
Proof.
  destruct mrs as [m r s]. cbn [shr_m]. intros Hm.
  destruct m as [| [p | p |] | p]; cbn; lia.
Qed.

Lemma iter_shr_1_nonneg (p : positive) (mrs : shr_record) :
  0 <= shr_m mrs -> 0 <= shr_m (SpecFloat.iter_pos shr_1 p mrs).
Proof.
  revert mrs. induction p as [p IH | p IH |]; intros mrs Hm; cbn [SpecFloat.iter_pos].
  - apply IH, IH, shr_1_nonneg, Hm.
  - apply IH, IH, Hm.
  - apply shr_1_nonneg, Hm.
Qed.

Lemma shr_fexp_nonneg (m e : Z) (l : location) :
  0 <= m -> 0 <= shr_m (fst (shr_fexp 53 1024 m e l)).
Proof.
  intros Hm. unfold shr_fexp, shr.
  assert (H0 : 0 <= shr_m (shr_record_of_loc m l))
    by (destruct l as [| []]; exact Hm).
  destruct (fexp 53 1024 (Zdigits2 m + e) - e); cbn [fst]; auto.
  apply iter_shr_1_nonneg, H0.
Qed.

Lemma binary_round_aux_not_nan (s : bool) (m e : Z) (l : location) :
  0 <= m -> binary_round_aux 53 1024 s m e l <> S754_nan.
Proof.
  intros Hm. unfold binary_round_aux.
  pose proof (shr_fexp_nonneg m e l Hm) as H1.
  destruct (shr_fexp 53 1024 m e l) as [mrs' e'] eqn:E1. cbn [fst] in H1.
  assert (H2 : 0 <= round_nearest_even (shr_m mrs') (loc_of_shr_record mrs')).
  { unfold round_nearest_even.
    destruct (loc_of_shr_record mrs') as [| []]; try lia.
    destruct (Z.even (shr_m mrs')); lia. }
  pose proof (shr_fexp_nonneg _ e' loc_Exact H2) as H3.
  destruct (shr_fexp 53 1024 _ e' loc_Exact) as [mrs'' e''] eqn:E2. cbn [fst] in H3.
  destruct (shr_m mrs''); [discriminate | | lia].
  destruct (e'' <=? 1024 - 53); discriminate.
Qed.

Lemma Z2F_not_nan (z : Z) : Z2F z <> S754_nan.
Proof.
  unfold Z2F, binary_normalize. destruct z as [| p | p]; [discriminate | |];
    unfold binary_round;
    destruct (shl_align _ _ _) as [mz ez]; apply binary_round_aux_not_nan; lia.
Qed.

Lemma SFeqb_refl (x : number) : x <> S754_nan -> SFeqb x x = true.
Proof.
  intros Hx. unfold SFeqb, SFcompare.
  destruct x as [s | s | | s m e]; try congruence; try (destruct s; reflexivity).
  rewrite Z.compare_refl, Pos.compare_cont_refl. destruct s; reflexivity.
Qed.

Lemma strictEqualsInt_Z2F (z : Z) : strictEqualsInt (Some (JNum (Z2F z))) z = true.
Proof. apply SFeqb_refl, Z2F_not_nan. Qed.

(* ------------------------------------------------------------------ *)
(** ** createYearData and isValidMonthlyData                            *)
(* ------------------------------------------------------------------ *)

Lemma every_spec (p : json -> nat -> bool) (data : list json) (idx : nat) :
  every p idx data = true
  <-> forall (i : nat) (m : json), data !! i = Some m -> p m (idx + i)%nat = true.
Proof.
  revert idx. induction data as [| x data IH]; intros idx; cbn [every].
  - split; [intros _ i m Hi; discriminate | reflexivity].
  - rewrite andb_true_iff, IH. split.
    + intros [Hx Hrest] [| i] m Hi.
      * injection Hi as <-. rewrite Nat.add_0_r. exact Hx.
      * replace (idx + S i)%nat with (S idx + i)%nat by lia. apply Hrest. exact Hi.
    + intros Hall. split.
      * rewrite <- (Nat.add_0_r idx). apply Hall. reflexivity.
      * intros i m Hi. replace (S idx + i)%nat with (idx + S i)%nat by lia.
        apply Hall. exact Hi.
Qed.

Section Validation.
Context `{TimeZone}.

Lemma isValidMonth_spec (yr : Z) (m : json) (idx : nat) :
  supportedYear yr -> (idx < 12)%nat ->
  isValidMonth yr m idx = true <-> validMonthShape yr idx m.
Proof.
  intros Hy Hidx. unfold isValidMonth, validMonthShape.
  rewrite getDate_last_day by (auto; lia). split.
  - intros Hv. rewrite !andb_true_iff in Hv. destruct Hv as [[[_ Hmo] Hye] Hda].
    destruct m as [| b | n | s | items | props]; try discriminate.
    cbn [field] in *.
    destruct (assoc (js "days") props) as [[| | | | ds |] |] eqn:Hdays;
      try discriminate. cbn [asArray] in Hda.
    exists props, ds. repeat split; auto.
    unfold num_eq in Hda. apply Z.eqb_eq in Hda. exact Hda.
  - intros (props & ds & -> & Hmo & Hye & Hda & Hlen).
    cbn [field truthy]. rewrite Hmo, Hye, Hda. cbn [asArray andb].
    unfold num_eq. apply Z.eqb_eq. exact Hlen.
Qed.

Lemma isValidMonthlyData_spec (yr : Z) (data : jsvalue) :
  supportedYear yr ->
  isValidMonthlyData data yr = true
  <-> exists ms : list json,
        data = Some (JArr ms) /\ length ms = 12%nat
        /\ forall (idx : nat) (m : json),
             ms !! idx = Some m -> validMonthShape yr idx m.
Proof.
  intros Hy. unfold isValidMonthlyData. split.
  - destruct data as [[| | | | ms |] |]; try discriminate. cbn [asArray].
    rewrite andb_true_iff, Nat.eqb_eq, every_spec. intros [Hlen Hall].
    exists ms. repeat split; auto. intros idx m Hm.
    apply isValidMonth_spec; auto.
    + apply lookup_lt_Some in Hm. lia.
    + apply (Hall idx m Hm).
  - intros (ms & -> & Hlen & Hall). cbn [asArray].
    rewrite andb_true_iff, Nat.eqb_eq, every_spec. split; [exact Hlen |].
    intros i m Hm. cbn [Nat.add]. apply isValidMonth_spec; auto.
    apply lookup_lt_Some in Hm. lia.
Qed.

Lemma createYearData_valid (yr : Z) :
  supportedYear yr ->
  isValidMonthlyData (Some (calendarToJson (createYearData yr))) yr = true.
Proof.
  intros Hy. apply isValidMonthlyData_spec; [exact Hy |].
  exists (map monthToJson (createYearData yr)).
  split; [reflexivity | split; [reflexivity |]].
  intros idx m Hm. change (@map) with (@fmap list _) in Hm.
  rewrite list_lookup_fmap in Hm.
  assert (Hidx : (idx < 12)%nat).
  { destruct (createYearData yr !! idx) eqn:E; [| discriminate].
    apply lookup_lt_Some in E. rewrite createYearData_length in E. exact E. }
  rewrite createYearData_lookup in Hm by assumption.
  cbn [fmap option_fmap option_map] in Hm. injection Hm as <-.
  unfold monthToJson. cbn [month year days].
  eexists _, _. split; [reflexivity |].
  change (assoc (js "month") _) with (Some (JNum (Z2F (Z.of_nat idx)))).
  change (assoc (js "year") _) with (Some (JNum (Z2F yr))).
  rewrite !strictEqualsInt_Z2F.
  split; [reflexivity | split; [reflexivity | split; [reflexivity |]]].
  rewrite !length_map, length_seq.
  pose proof (daysInMonth_range yr (Z.of_nat idx) ltac:(lia)). lia.
Qed.

(** C7: [createYearData] builds twelve months, numbered by their index
    and carrying the year, each with as many days as the month has in
    that year, numbered from 1 and all unset; February has 29 days in
    2028 and 28 in 2026. [isValidMonthlyData] accepts what
    [createYearData] builds, and accepts a value exactly when it is an
    array of twelve objects whose [month] is their index, whose [year]
    is the year asked for and whose [days] is an array of the length of
    that month. *)
Theorem createYearData_isValidMonthlyData (yr : Z) :
  supportedYear yr ->
  length (createYearData yr) = 12%nat
  /\ (forall (m : nat) (mm : MonthlyData),
         createYearData yr !! m = Some mm ->
         month mm = Z.of_nat m /\ year mm = yr
         /\ Z.of_nat (length (days mm)) = daysInMonth yr (Z.of_nat m)
         /\ forall (i : nat) (dd : DailyStatistic),
              days mm !! i = Some dd ->
              day dd = Z.of_nat i + 1 /\ status dd = None)
  /\ (length <$> (days <$> createYearData 2028 !! 1%nat) = Some 29%nat
      /\ length <$> (days <$> createYearData 2026 !! 1%nat) = Some 28%nat)
  /\ isValidMonthlyData (Some (calendarToJson (createYearData yr))) yr = true
  /\ (forall data : jsvalue,
         isValidMonthlyData data yr = true
         <-> exists ms : list json,
               data = Some (JArr ms) /\ length ms = 12%nat
               /\ forall (idx : nat) (m : json),
                    ms !! idx = Some m -> validMonthShape yr idx m).
Proof.
  intros Hy. split; [reflexivity | split; [| split; [| split]]].
  - intros m mm Hm.
    assert (Hm12 : (m < 12)%nat)
      by (apply lookup_lt_Some in Hm; rewrite createYearData_length in Hm; exact Hm).
    rewrite createYearData_lookup in Hm by assumption. injection Hm as <-.
    cbn [month year days]. split; [reflexivity | split; [reflexivity | split]].
    + rewrite length_map, length_seq.
      pose proof (daysInMonth_range yr (Z.of_nat m) ltac:(lia)). lia.
    + intros i dd Hi. change (@map) with (@fmap list _) in Hi.
      rewrite list_lookup_fmap in Hi.
      destruct (seq 0 _ !! i) as [j |] eqn:Hj; [| discriminate].
      apply lookup_seq in Hj. destruct Hj as [-> _].
      injection Hi as <-. auto.
  - rewrite !createYearData_lookup by (unfold supportedYear; lia).
    cbn [fmap option_fmap option_map days].
    rewrite !length_map, !length_seq. split; reflexivity.
  - apply createYearData_valid. exact Hy.
  - intros data. apply isValidMonthlyData_spec. exact Hy.
Qed.
End Validation.

(* ------------------------------------------------------------------ *)
(** ** safetyStreak                                                     *)
(* ------------------------------------------------------------------ *)

Lemma runBack_nonneg (counts : Z -> bool) (d : Z) (n : nat) : 0 <= runBack counts d n.
Proof.
  revert d. induction n as [| n IH]; intros d; cbn [runBack]; [lia |].
  destruct (counts d); [| lia]. specialize (IH (d - 1)). lia.
Qed.

Section Streak.
Context `{TimeZone}.

(** The days of a supported year, and the day before, are valid dates. *)
Lemma TimeClip_in_year (yr d tod : Z) :
  supportedYear yr ->
  DayFromYear yr - 1 <= d < DayFromYear (yr + 1) -> 0 <= tod < msPerDay ->
  TimeClip (UTC (MakeDate d tod)) = Some (UTC (MakeDate d tod)).
Proof.
  intros [Hy1 Hy2] Hd Htod. unfold TimeClip.
  pose proof LocalTZA_bound as Htz.
  assert (Hlo : DayFromYear 100 = -683003) by reflexivity.
  assert (Hhi : DayFromYear 275760 = 99999744) by reflexivity.
  pose proof (DayFromYear_mono 100 yr ltac:(lia)).
  pose proof (DayFromYear_mono (yr + 1) 275760 ltac:(lia)).
  destruct (Z.leb_spec (Z.abs (UTC (MakeDate d tod))) 8640000000000000)
    as [_ | Hbad]; [reflexivity |].
  unfold UTC, MakeDate, msPerDay in *. lia.
Qed.

Lemma getters_of_day (d tod : Z) :
  0 <= tod < msPerDay ->
  getFullYear (Some (UTC (MakeDate d tod))) = Some (YearFromDay d)
  /\ getMonth (Some (UTC (MakeDate d tod))) = Some (monthOfDay d)
  /\ getDate (Some (UTC (MakeDate d tod))) = Some (dateOfDay d).
Proof.
  intros Htod. destruct (getters_value (MakeDate d tod)) as (-> & -> & ->).
  rewrite Day_MakeDate by exact Htod. auto.
Qed.

Lemma MakeDay_pred (y m d : Z) : MakeDay y m (d - 1) = MakeDay y m d - 1.
Proof. unfold MakeDay. lia. Qed.

(** [dt.setDate(dt.getDate() - 1)] is the same time on the day before. *)
Lemma setDate_yesterday (yr d tod : Z) :
  supportedYear yr ->
  DayFromYear yr <= d < DayFromYear (yr + 1) -> 0 <= tod < msPerDay ->
  setDate (Some (UTC (MakeDate d tod)))
          (num_sub (getDate (Some (UTC (MakeDate d tod)))) (Some 1))
  = Some (UTC (MakeDate (d - 1) tod)).
Proof.
  intros Hy Hd Htod.
  destruct (getters_of_day d tod Htod) as (_ & _ & ->).
  cbn [num_sub setDate]. rewrite LocalTime_UTC.
  destruct (fields_of_day (MakeDate d tod)) as (-> & -> & _).
  rewrite Day_MakeDate, TimeWithinDay_MakeDate by exact Htod.
  destruct (MakeDay_of_fields d) as (_ & _ & Hmk).
  rewrite MakeDay_pred, Hmk.
  apply (TimeClip_in_year yr); auto; lia.
Qed.

Lemma streakLoop_spec (monthlyData : list MonthlyData) (yr tod : Z) :
  supportedYear yr -> 0 <= tod < msPerDay ->
  forall (n fuel : nat) (d acc : Z),
    (n < fuel)%nat -> d = DayFromYear yr + Z.of_nat n -> d < DayFromYear (yr + 1) ->
    streakLoop fuel monthlyData (Some yr) (Some (UTC (MakeDate d tod))) acc
    = Some (acc + runBack (fun d => countsForStreak (statusOnDay monthlyData d))
                          d (S n)).
Proof.
  intros Hy Htod. induction n as [| n IH]; intros fuel d acc Hfuel Hd Hlt;
    (destruct fuel as [| fuel]; [lia |]); cbn [streakLoop runBack].
  - rewrite (setDate_yesterday yr) by (auto; lia).
    destruct (getters_of_day d tod Htod) as (_ & Hgm & Hgd).
    rewrite Hgm, Hgd. fold (statusOnDay monthlyData d).
    destruct (countsForStreak (statusOnDay monthlyData d)); [| f_equal; lia].
    destruct (getters_of_day (d - 1) tod Htod) as (-> & _ & _).
    assert (Hprev : YearFromDay (d - 1) = yr - 1).
    { apply YearFromDay_unique. replace (yr - 1 + 1) with yr by lia.
      pose proof (DayFromYear_succ (yr - 1)) as Hs.
      replace (yr - 1 + 1) with yr in Hs by lia.
      destruct (isLeapYear_cases (yr - 1)) as [[_ Hl] | [_ Hl]]; lia. }
    rewrite Hprev. unfold num_ne, num_eq.
    destruct (Z.eqb_spec (yr - 1) yr); [lia |]. cbn [negb]. f_equal; lia.
  - rewrite (setDate_yesterday yr) by (auto; lia).
    destruct (getters_of_day d tod Htod) as (_ & Hgm & Hgd).
    rewrite Hgm, Hgd. fold (statusOnDay monthlyData d).
    destruct (countsForStreak (statusOnDay monthlyData d)); [| f_equal; lia].
    destruct (getters_of_day (d - 1) tod Htod) as (-> & _ & _).
    assert (Hsame : YearFromDay (d - 1) = yr) by (apply YearFromDay_unique; lia).
    rewrite Hsame. unfold num_ne, num_eq. rewrite Z.eqb_refl. cbn [negb].
    rewrite (IH fuel (d - 1) (acc + 1)) by lia.
    cbn [runBack]. f_equal; lia.
Qed.

(** C5: [safetyStreak] is 0 when the year of [now] is another one.
    Otherwise it starts at today when today counts (safe or near miss)
    and at yesterday when it does not, goes back one day at a time
    counting the days that count, and stops at the first day that does
    not count or at the start of the year; 367 iterations always
    suffice and the result is not negative. *)
Theorem safetyStreak_counts_back (monthlyData : list MonthlyData)
    (now : JSDate) (yr : Z) :
  (getFullYear now <> Some yr -> safetyStreak monthlyData now yr = Some 0)
  /\ (forall tv : Z,
        supportedYear yr -> now = Some tv -> getFullYear now = Some yr ->
        let today := Day (LocalTime tv) in
        let counts := fun d => countsForStreak (statusOnDay monthlyData d) in
        let anchor := if counts today then today else today - 1 in
        let streak := runBack counts anchor (Z.to_nat (anchor - DayFromYear yr + 1)) in
        0 <= streak
        /\ forall fuel : nat,
             (367 <= fuel)%nat ->
             safetyStreak_fuel fuel monthlyData now yr = Some streak).
Proof.
  split.
  - intros Hne. unfold safetyStreak, safetyStreak_fuel.
    replace (num_ne (getFullYear now) (Some yr)) with true; [reflexivity |].
    unfold num_ne, num_eq. destruct (getFullYear now) as [y |]; [| reflexivity].
    destruct (Z.eqb_spec y yr); [congruence | reflexivity].
  - intros tv Hy -> Hyear. cbn zeta. split; [apply runBack_nonneg |].
    intros fuel Hfuel. unfold safetyStreak_fuel. rewrite Hyear.
    replace (num_ne (Some yr) (Some yr)) with false
      by (unfold num_ne, num_eq; rewrite Z.eqb_refl; reflexivity).
    destruct (fields_of_date tv yr Hyear) as (tm & td & Htm & Htd & Hr1 & Hr2 & Hmk).
    set (today := Day (LocalTime tv)) in *.
    assert (Hfields : tm = monthOfDay today /\ td = dateOfDay today).
    { unfold getMonth, getDate in Htm, Htd. cbn [option_map] in Htm, Htd.
      destruct (fields_of_day (LocalTime tv)) as (_ & Hm & Hd).
      fold today in Hm, Hd. split; congruence. }
    destruct Hfields as [Hm Hd].
    assert (Hin : DayFromYear yr <= today < DayFromYear (yr + 1)).
    { pose proof (YearFromDay_spec today) as Hs.
      unfold getFullYear in Hyear. cbn [option_map] in Hyear.
      destruct (fields_of_day (LocalTime tv)) as (Hyr & _ & _).
      fold today in Hyr. rewrite Hyr in Hyear. injection Hyear as Hyear.
      rewrite Hyear in Hs. exact Hs. }
    pose proof (daysInMonth_range yr tm Hr1) as Hdim.
    rewrite Htm, Htd.
    replace (statusOf monthlyData (Some tm) (Some td)) with (statusOnDay monthlyData today)
      by (unfold statusOnDay; rewrite <- Hm, <- Hd; reflexivity).
    assert (Hn : DayFromYear (yr + 1) - DayFromYear yr <= 366).
    { rewrite DayFromYear_succ. unfold DaysInYear. destruct (isLeapYear yr); lia. }
    destruct (countsForStreak (statusOnDay monthlyData today)) eqn:Hcounts.
    + cbn [newDateN]. rewrite newDate_value by (auto; lia). rewrite Hmk.
      destruct (getters_of_day today 0 ltac:(unfold msPerDay; lia)) as (-> & _ & _).
      rewrite (YearFromDay_unique yr today Hin).
      replace (num_ne (Some yr) (Some yr)) with false
        by (unfold num_ne, num_eq; rewrite Z.eqb_refl; reflexivity).
      rewrite (streakLoop_spec monthlyData yr 0 Hy ltac:(unfold msPerDay; lia)
                 (Z.to_nat (today - DayFromYear yr)) fuel today 0) by lia.
      f_equal. replace (Z.to_nat (today - DayFromYear yr + 1))
                 with (S (Z.to_nat (today - DayFromYear yr))) by lia.
      reflexivity.
    + cbn [num_sub newDateN]. rewrite newDate_value by (auto; lia).
      rewrite MakeDay_pred, Hmk.
      destruct (getters_of_day (today - 1) 0 ltac:(unfold msPerDay; lia)) as (-> & _ & _).
      destruct (Z.eq_dec today (DayFromYear yr)) as [Hjan1 | Hlater].
      * assert (Hprev : YearFromDay (today - 1) = yr - 1).
        { apply YearFromDay_unique. replace (yr - 1 + 1) with yr by lia.
          pose proof (DayFromYear_succ (yr - 1)) as Hs.
          replace (yr - 1 + 1) with yr in Hs by lia.
          destruct (isLeapYear_cases (yr - 1)) as [[_ Hl] | [_ Hl]]; lia. }
        rewrite Hprev. unfold num_ne, num_eq.
        destruct (Z.eqb_spec (yr - 1) yr); [lia |]. cbn [negb].
        replace (Z.to_nat (today - 1 - DayFromYear yr + 1)) with O by lia.
        reflexivity.
      * rewrite (YearFromDay_unique yr (today - 1)) by lia.
        replace (num_ne (Some yr) (Some yr)) with false
          by (unfold num_ne, num_eq; rewrite Z.eqb_refl; reflexivity).
        rewrite (streakLoop_spec monthlyData yr 0 Hy ltac:(unfold msPerDay; lia)
                   (Z.to_nat (today - 1 - DayFromYear yr)) fuel (today - 1) 0) by lia.
        f_equal. replace (Z.to_nat (today - 1 - DayFromYear yr + 1))
                   with (S (Z.to_nat (today - 1 - DayFromYear yr))) by lia.
        reflexivity.
Qed.
End Streak.

(* ------------------------------------------------------------------ *)
(** ** The JSON form of a calendar                                      *)
(* ------------------------------------------------------------------ *)

(** Reading a JSON value as a calendar loses nothing: the value is the
    JSON form of the calendar read. *)
Lemma integerValue_sound (x : number) (z : Z) :
  integerValue x = Some z -> Z2F z = x.
Proof.
  unfold integerValue. intros Hx.
  match type of Hx with
  | (if bool_decide (Z2F ?v = x) then _ else _) = _ =>
      destruct (bool_decide (Z2F v = x)) eqn:Hb; [| discriminate];
      apply bool_decide_eq_true in Hb
  end.
  congruence.
Qed.

Lemma asInt_sound (v : json) (z : Z) : asInt v = Some z -> v = JNum (Z2F z).
Proof.
  destruct v; cbn; try discriminate.
  intros Hn. apply integerValue_sound in Hn. congruence.
Qed.

Lemma jsstring_eqb_true (a b : jsstring) : jsstring_eqb a b = true -> a = b.
Proof. apply bool_decide_eq_true. Qed.

Lemma asStatus_sound (v : json) (s : DayStatus) :
  asStatus v = Some s -> statusToJson s = v.
Proof.
  destruct v as [| | | str | |]; cbn -[js]; try discriminate.
  - intros [= <-]. reflexivity.
  - destruct (jsstring_eqb str (js "safe")) eqn:H1;
      [apply jsstring_eqb_true in H1; intros [= <-]; cbn -[js]; congruence |].
    destruct (jsstring_eqb str (js "near_miss")) eqn:H2;
      [apply jsstring_eqb_true in H2; intros [= <-]; cbn -[js]; congruence |].
    destruct (jsstring_eqb str (js "accident")) eqn:H3;
      [apply jsstring_eqb_true in H3; intros [= <-]; cbn -[js]; congruence |].
    discriminate.
Qed.

Lemma asDay_sound (v : json) (dd : DailyStatistic) :
  asDay v = Some dd -> dayToJson dd = v.
Proof.
  destruct v as [| | | | | props]; cbn -[js]; try discriminate.
  destruct props as [| [k1 d] [| [k2 s] [|]]]; try discriminate.
  destruct (jsstring_eqb k1 (js "day")) eqn:H1; [| discriminate].
  destruct (jsstring_eqb k2 (js "status")) eqn:H2; [| discriminate].
  cbn -[js].
  destruct (asInt d) as [z |] eqn:Hd; [| discriminate].
  destruct (asStatus s) as [st |] eqn:Hs; [| discriminate].
  intros [= <-].
  apply jsstring_eqb_true in H1, H2. apply asInt_sound in Hd.
  apply asStatus_sound in Hs.
  unfold dayToJson. cbn -[js]. congruence.
Qed.

Lemma allSome_sound {A B : Type} (f : B -> option A) (g : A -> B) (l : list B) :
  (forall b a, f b = Some a -> g a = b) ->
  forall r, allSome (map f l) = Some r -> map g r = l.
Proof.
  intros Hfg. induction l as [| b l IH]; cbn; intros r Hr.
  - injection Hr as <-. reflexivity.
  - destruct (f b) as [a |] eqn:Hb; [| discriminate].
    destruct (allSome (map f l)) as [r' |]; [| discriminate].
    injection Hr as <-. cbn. f_equal; auto.
Qed.

Lemma asMonth_sound (v : json) (mm : MonthlyData) :
  asMonth v = Some mm -> monthToJson mm = v.
Proof.
  destruct v as [| | | | | props]; cbn -[js]; try discriminate.
  destruct props as [| [k1 m] [| [k2 y] [| [k3 ds] [|]]]]; try discriminate;
    destruct ds as [| | | | ds |]; try discriminate.
  destruct (jsstring_eqb k1 (js "month")) eqn:H1; [| discriminate].
  destruct (jsstring_eqb k2 (js "year")) eqn:H2; [| discriminate].
  destruct (jsstring_eqb k3 (js "days")) eqn:H3; [| discriminate].
  cbn -[js].
  destruct (asInt m) as [zm |] eqn:Hm; [| discriminate].
  destruct (asInt y) as [zy |] eqn:Hy; [| discriminate].
  destruct (allSome (map asDay ds)) as [l |] eqn:Hl; [| discriminate].
  intros [= <-].
  apply jsstring_eqb_true in H1, H2, H3. apply asInt_sound in Hm, Hy.
  apply (allSome_sound asDay dayToJson ds asDay_sound) in Hl.
  unfold monthToJson. cbn -[js]. congruence.
Qed.

Lemma asMonthlyData_sound (data : json) (c : list MonthlyData) :
  asMonthlyData data = Some c -> calendarToJson c = data.
Proof.
  destruct data as [| | | | ms |]; cbn; try discriminate.
  intros Hc. unfold calendarToJson. f_equal.
  exact (allSome_sound asMonth monthToJson ms asMonth_sound c Hc).
Qed.

(* ------------------------------------------------------------------ *)
(** ** Loading the persisted state                                      *)
(* ------------------------------------------------------------------ *)

Section LoadProperties.
Context `{TimeZone} `{JSRuntime}.

Lemma getProp_not_null (doc : json) (k : jsstring) :
  doc <> JNull -> getProp (Some doc) k = Normal (field doc k).
Proof. destruct doc; intros Hd; try reflexivity. congruence. Qed.

(** The run of the [try] block on a document that is not [null]: the
    three places where it can throw, and the state at each. *)
Lemma loadParsed_run (doc : json) (now : JSDate) (yr : Z) (st : Dashboard) :
  doc <> JNull ->
  loadParsed doc now yr st
  = match loadMonthlyData (field doc (js "monthlyData")) now yr with
    | Throw => (Throw, st)
    | Normal cal =>
        let st1 :=
          setTargetFormulas (spreadOr (field doc (js "targetFormulas")) DEFAULT_TARGET_FORMULAS)
            (setTargetVars (spreadOr (field doc (js "targetVars")) DEFAULT_TARGET_VARS)
               (setPolicyZoom (loadZoom (field doc (js "policyZoom")))
                  (setPolicyImages (loadPolicyImages (field doc (js "policyImages")))
                     (setPosterBottomZoom (loadZoom (field doc (js "posterBottomZoom")))
                        (setPosterTopZoom (loadZoom (field doc (js "posterTopZoom")))
                           (setPosterBottom
                              (Some (stringOr (field doc (js "posterBottom"))
                                              DEFAULT_POSTER_BOTTOM))
                              (setPosterTop
                                 (Some (stringOr (field doc (js "posterTop"))
                                                 DEFAULT_POSTER_TOP))
                                 (setAnnouncements
                                    (nonEmptyArrayOr (field doc (js "announcements"))
                                                     DEFAULT_ANNOUNCEMENTS)
                                    (setMonthlyData cal st))))))))) in
        match loadFiniteNumber (field doc (js "bestRecord")) with
        | Throw => (Throw, st1)
        | Normal b =>
            match loadFiniteNumber (field doc (js "lossTimeAccidents")) with
            | Throw => (Throw, setBestRecord b st1)
            | Normal l =>
                (Normal tt,
                 setMetrics (nonEmptyArrayOr (field doc (js "metrics")) DEFAULT_METRICS)
                   (setLastUpdateIso
                      (stringOr (field doc (js "lastUpdateIso")) (toISOString now))
                      (setLossTimeAccidents l (setBestRecord b st1))))
            end
        end
    end.
Proof.
  intros Hdoc. unfold loadParsed, eff_bind, eff_lift, eff_set.
  rewrite !(getProp_not_null doc) by exact Hdoc.
  destruct (loadMonthlyData _ now yr) as [cal |]; [| reflexivity]. cbn zeta.
  destruct (loadFiniteNumber (field doc (js "bestRecord"))) as [b |]; [| reflexivity].
  destruct (loadFiniteNumber (field doc (js "lossTimeAccidents"))) as [l |]; reflexivity.
Qed.

Lemma loadParsed_null (now : JSDate) (yr : Z) (st : Dashboard) :
  loadParsed JNull now yr st = (Throw, st).
Proof. reflexivity. Qed.

Lemma nonEmptyArrayOr_not_nil (v : jsvalue) (dflt : list json) :
  dflt <> [] -> nonEmptyArrayOr v dflt <> [].
Proof.
  intros Hd. unfold nonEmptyArrayOr.
  destruct (asArray v) as [[| x rest] |]; auto.
Qed.

(** The announcements and the metrics after the load: the defaults, or
    what the rule for the field makes of the document's field. *)
Lemma loaded_lists (item : StoredItem) (now : JSDate) (yr : Z) :
  (announcements (loaded item now yr) = DEFAULT_ANNOUNCEMENTS
   \/ exists doc, item = Parsed doc
        /\ announcements (loaded item now yr)
           = nonEmptyArrayOr (field doc (js "announcements")) DEFAULT_ANNOUNCEMENTS)
  /\ (metrics (loaded item now yr) = DEFAULT_METRICS
      \/ exists doc, item = Parsed doc
           /\ metrics (loaded item now yr)
              = nonEmptyArrayOr (field doc (js "metrics")) DEFAULT_METRICS).
Proof.
  unfold loaded, loadPersistedState, tryCatch.
  destruct item as [| | | doc]; try (split; left; reflexivity).
  assert (Hnull : doc = JNull \/ doc <> JNull)
    by (destruct doc; auto; right; discriminate).
  destruct Hnull as [-> | Hdoc]; [split; left; reflexivity |].
  rewrite (loadParsed_run doc now yr _ Hdoc).
  destruct (loadMonthlyData _ now yr) as [cal |]; [| split; left; reflexivity].
  cbn zeta.
  destruct (loadFiniteNumber (field doc (js "bestRecord"))) as [b |].
  - destruct (loadFiniteNumber (field doc (js "lossTimeAccidents"))) as [l |].
    + split; right; exists doc; split; reflexivity.
    + split; [right; exists doc; split; reflexivity | left; reflexivity].
  - split; [right; exists doc; split; reflexivity | left; reflexivity].
Qed.

(** C10: a stored [announcements] or [metrics] that is an empty array is
    replaced by the defaults, since the load path asks for an array that
    is not empty; so after a load neither list is empty. *)
Theorem loaded_lists_never_empty (item : StoredItem) (now : JSDate) (yr : Z) :
  nonEmptyArrayOr (Some (JArr [])) DEFAULT_ANNOUNCEMENTS = DEFAULT_ANNOUNCEMENTS
  /\ nonEmptyArrayOr (Some (JArr [])) DEFAULT_METRICS = DEFAULT_METRICS
  /\ (forall doc : json,
         item = Parsed doc -> field doc (js "announcements") = Some (JArr []) ->
         announcements (loaded item now yr) = DEFAULT_ANNOUNCEMENTS)
  /\ (forall doc : json,
         item = Parsed doc -> field doc (js "metrics") = Some (JArr []) ->
         metrics (loaded item now yr) = DEFAULT_METRICS)
  /\ announcements (loaded item now yr) <> []
  /\ metrics (loaded item now yr) <> [].
Proof.
  destruct (loaded_lists item now yr) as [Ha Hm].
  split; [reflexivity | split; [reflexivity | split; [| split; [| split]]]].
  - intros doc Hitem Hfield.
    destruct Ha as [Ha | (doc' & Hitem' & Ha)]; [exact Ha |].
    rewrite Hitem in Hitem'. injection Hitem' as <-.
    rewrite Ha, Hfield. reflexivity.
  - intros doc Hitem Hfield.
    destruct Hm as [Hm | (doc' & Hitem' & Hm)]; [exact Hm |].
    rewrite Hitem in Hitem'. injection Hitem' as <-.
    rewrite Hm, Hfield. reflexivity.
  - destruct Ha as [-> | (doc & _ & ->)]; [discriminate |].
    apply nonEmptyArrayOr_not_nil. discriminate.
  - destruct Hm as [-> | (doc & _ & ->)]; [discriminate |].
    apply nonEmptyArrayOr_not_nil. discriminate.
Qed.

(** C9, as the code has it: when the stored calendar passes validation
    and is a typed calendar, the announcements are not an array and the
    two numeric conversions return, the loaded calendar is the stored one
    after the rollover of [applyAutoSafe], the announcements are the
    defaults, and every other field is what its own rule makes of the
    document's field of that name. *)
Theorem loaded_valid_calendar_corrupt_announcements
    (doc data : json) (prev : list MonthlyData) (now : JSDate) (yr : Z)
    (b l : number) :
  field doc (js "monthlyData") = Some data ->
  isValidMonthlyData (Some data) yr = true ->
  asMonthlyData data = Some prev ->
  asArray (field doc (js "announcements")) = None ->
  loadFiniteNumber (field doc (js "bestRecord")) = Normal b ->
  loadFiniteNumber (field doc (js "lossTimeAccidents")) = Normal l ->
  loaded (Parsed doc) now yr
  = {| monthlyData := calendarToJson (applyAutoSafe prev now yr);
       announcements := DEFAULT_ANNOUNCEMENTS;
       posterTop := Some (stringOr (field doc (js "posterTop")) DEFAULT_POSTER_TOP);
       posterBottom :=
         Some (stringOr (field doc (js "posterBottom")) DEFAULT_POSTER_BOTTOM);
       posterTopZoom := loadZoom (field doc (js "posterTopZoom"));
       posterBottomZoom := loadZoom (field doc (js "posterBottomZoom"));
       policyImages := loadPolicyImages (field doc (js "policyImages"));
       policyZoom := loadZoom (field doc (js "policyZoom"));
       targetVars := spreadOr (field doc (js "targetVars")) DEFAULT_TARGET_VARS;
       targetFormulas :=
         spreadOr (field doc (js "targetFormulas")) DEFAULT_TARGET_FORMULAS;
       bestRecord := b;
       lossTimeAccidents := l;
       lastUpdateIso := stringOr (field doc (js "lastUpdateIso")) (toISOString now);
       metrics := nonEmptyArrayOr (field doc (js "metrics")) DEFAULT_METRICS |}.
Proof.
  intros Hdata Hvalid Htyped Hann Hb Hl.
  assert (Hdoc : doc <> JNull) by (intros ->; discriminate).
  unfold loaded, loadPersistedState, tryCatch.
  rewrite (loadParsed_run doc now yr _ Hdoc), Hdata.
  unfold loadMonthlyData. rewrite Hvalid. unfold applyAutoSafe_loaded.
  rewrite Htyped. cbn zeta. rewrite Hb, Hl. cbn [snd].
  unfold nonEmptyArrayOr at 2. rewrite Hann. reflexivity.
Qed.

(** What the [catch] block does to a valid stored calendar when a later
    field makes [Number] throw: the calendar is replaced by a fresh one
    and the metrics are never read. *)
Lemma loaded_after_throw (doc data : json) (now : JSDate) (yr : Z) (cal : json) :
  doc <> JNull ->
  loadMonthlyData (field doc (js "monthlyData")) now yr = Normal cal ->
  loadFiniteNumber (field doc (js "bestRecord")) = Throw ->
  monthlyData (loaded (Parsed doc) now yr) = freshCalendar now yr
  /\ metrics (loaded (Parsed doc) now yr) = DEFAULT_METRICS.
Proof.
  intros Hdoc Hcal Hb. unfold loaded, loadPersistedState, tryCatch.
  rewrite (loadParsed_run doc now yr _ Hdoc), Hcal. cbn zeta. rewrite Hb.
  split; reflexivity.
Qed.
End LoadProperties.

(* ------------------------------------------------------------------ *)
(** ** The formula evaluator                                            *)
(* ------------------------------------------------------------------ *)

Lemma isWhiteSpace_whitelisted (c : N) : isWhiteSpace c = true -> whitelisted c = true.
Proof. intros Hc. unfold whitelisted. rewrite Hc. apply orb_true_r. Qed.

Lemma trimStart_keeps (s : jsstring) (c : N) :
  c ∈ s -> isWhiteSpace c = false -> c ∈ trimStart s.
Proof.
  intros Hin Hc. induction s as [| x s IH]; [exact Hin |].
  cbn [trimStart]. destruct (isWhiteSpace x) eqn:Hx; [| exact Hin].
  apply IH. apply elem_of_cons in Hin. destruct Hin as [-> | Hin]; [congruence | exact Hin].
Qed.

Lemma trim_keeps (s : jsstring) (c : N) :
  c ∈ s -> isWhiteSpace c = false -> c ∈ trim s.
Proof.
  intros Hin Hc. unfold trim, trimEnd.
  apply list_elem_of_In, in_rev. rewrite rev_involutive.
  apply list_elem_of_In, trimStart_keeps; [| exact Hc].
  apply list_elem_of_In. rewrite <- in_rev.
  apply list_elem_of_In, trimStart_keeps; assumption.
Qed.

Lemma forallb_false_elem (p : N -> bool) (s : jsstring) (c : N) :
  c ∈ s -> p c = false -> forallb p s = false.
Proof.
  intros Hin Hc. destruct (forallb p s) eqn:Hall; [| reflexivity].
  rewrite forallb_forall in Hall.
  rewrite (Hall c) in Hc; [discriminate | apply list_elem_of_In, Hin].
Qed.

Section SafeEvalProperties.
Context {World : Type}.
Variable engine : jsstring -> Vars -> World -> option (Completion value * World).

(** A character outside the whitelist makes [safeEval] return [null]
    whatever the engine is: the engine is not consulted and the world
    stays as it was. *)
Lemma safeEval_rejects (expr : jsstring) (vars : Vars) (w : World) (c : N) :
  c ∈ expr -> whitelisted c = false ->
  safeEval engine expr vars w = Some (None, w).
Proof.
  intros Hin Hc. unfold safeEval.
  assert (Hws : isWhiteSpace c = false).
  { destruct (isWhiteSpace c) eqn:E; [| reflexivity].
    rewrite (isWhiteSpace_whitelisted c E) in Hc. discriminate. }
  pose proof (trim_keeps expr c Hin Hws) as Hin'.
  destruct (bool_decide (trim expr = [])); [reflexivity |].
  rewrite (forallb_false_elem whitelisted (trim expr) c Hin' Hc). reflexivity.
Qed.
End SafeEvalProperties.

(** The worked examples of the specification. *)
Example safeEval_product :
  safeEval callNewFunction (js "manpower * daysPerWeek")
    [(js "manpower", Z2F 675); (js "daysPerWeek", Z2F 6)] (standardHost 0)
  = Some (Some (Z2F 4050), standardHost 0).
Proof. vm_compute. reflexivity. Qed.

Example safeEval_unknown_variable :
  safeEval callNewFunction (js "unknownVar + 1") [(js "manpower", Z2F 1)]
    (standardHost 0)
  = Some (None, standardHost 0).
Proof. vm_compute. reflexivity. Qed.

(** C2, as the code has it: an expression with a character outside the
    whitelist (digits, ASCII letters, underscore, [+ - * /], parentheses,
    point, white space) yields [null] at once, whatever evaluating it
    would do. Every character of [import(1)] is whitelisted: it passes
    the test and is evaluated, and it yields [null] because what the
    evaluation returns, a promise, is not a number. *)
Theorem safeEval_whitelist :
  (forall (World : Type)
          (engine : jsstring -> Vars -> World -> option (Completion value * World))
          (expr : jsstring) (vars : Vars) (w : World),
      (exists c : N, c ∈ expr /\ whitelisted c = false) ->
      safeEval engine expr vars w = Some (None, w))
  /\ (forall c : N,
         whitelisted c = true
         <-> isDigit c = true \/ isLetter c = true \/ c = 95%N
             \/ (c = 43 \/ c = 45 \/ c = 42 \/ c = 47)%N
             \/ (c = 40 \/ c = 41)%N \/ c = 46%N \/ isWhiteSpace c = true)
  /\ forallb whitelisted (trim (js "import(1)")) = true
  /\ callNewFunction (js "with(vars){ return (import(1)); }") [] (standardHost 0)
     = Some (Normal VPromise, standardHost 0)
  /\ safeEval callNewFunction (js "import(1)") [] (standardHost 0)
     = Some (None, standardHost 0).
Proof.
  split; [| split; [| split; [| split]]].
  - intros World engine expr vars w (c & Hin & Hc).
    apply (safeEval_rejects engine expr vars w c Hin Hc).
  - intros c. unfold whitelisted, isPunct.
    rewrite !orb_true_iff, !N.eqb_eq. tauto.
  - vm_compute. reflexivity.
  - vm_compute. reflexivity.
  - vm_compute. reflexivity.
Qed.

(** The whitelist does not reject [import(1)]: an engine that answers 1
    makes [safeEval] return 1 for it. *)
Lemma safeEval_import_not_rejected :
  forallb whitelisted (trim (js "import(1)")) = true
  /\ safeEval (fun (_ : jsstring) (_ : Vars) (w : unit) =>
                 Some (Normal (VNumber (Z2F 1)), w))
       (js "import(1)") [] tt
     = Some (Some (Z2F 1), tt).
Proof. split; vm_compute; reflexivity. Qed.

(** [Date.now()] passes the whitelist, [Date] is not a property of [vars],
    and the [with] statement falls through to the global scope: the result
    is the reading of the host's clock. *)
Lemma safeEval_Date_now (h : Host) (vars : Vars) :
  assoc (js "Date") vars = None ->
  globalScope h (js "Date") = Bound (VBuiltin Date_) ->
  safeEval callNewFunction (js "Date.now()") vars h
  = Some (if isFinite (Z2F (clock h)) then Some (Z2F (clock h)) else None, h).
Proof.
  intros Hvars Hglobal.
  assert (Htrim : trim (js "Date.now()") = js "Date.now()") by reflexivity.
  assert (Hwhite : forallb whitelisted (js "Date.now()") = true) by reflexivity.
  assert (Hbody : between (js "with(vars){ return (") (js "); }")
                    (js "with(vars){ return (" ++ js "Date.now()" ++ js "); }")
                  = Some (js "Date.now()")) by reflexivity.
  assert (Hparse : parseExpression (js "Date.now()")
                   = Some (ECall (EMember (EId (js "Date")) (js "now")) None))
    by reflexivity.
  assert (Hproto : existsb (jsstring_eqb (js "Date")) objectPrototypeNames = false)
    by reflexivity.
  unfold safeEval. rewrite Htrim, Hwhite.
  destruct (bool_decide (js "Date.now()" = [])) eqn:Hempty; [discriminate Hempty |].
  cbn [negb]. unfold callNewFunction. rewrite Hbody, Hparse.
  cbn [evalExpr]. unfold resolveIdentifier. rewrite Hvars, Hproto.
  destruct (jsstring_eqb (js "Date") (js "vars") || jsstring_eqb (js "Date") (js "arguments"))
    eqn:Hown; [discriminate Hown |].
  rewrite Hglobal. cbn [getMember].
  destruct (jsstring_eqb (js "now") (js "now")) eqn:Hnow; [| discriminate Hnow].
  cbn [callValue option_map]. destruct (isFinite (Z2F (clock h))); reflexivity.
Qed.

(** C1 fails on the code: with the same expression and the same (empty)
    variables, [safeEval] returns the time of the call. *)
Theorem safeEval_depends_on_clock :
  safeEval callNewFunction (js "Date.now()") [] (standardHost 1700000000000)
  = Some (Some (Z2F 1700000000000), standardHost 1700000000000)
  /\ safeEval callNewFunction (js "Date.now()") [] (standardHost 1700000000001)
     = Some (Some (Z2F 1700000000001), standardHost 1700000000001)
  /\ Z2F 1700000000000 <> Z2F 1700000000001.
Proof.
  split; [| split].
  - rewrite safeEval_Date_now by reflexivity. reflexivity.
  - rewrite safeEval_Date_now by reflexivity. reflexivity.
  - vm_compute. discriminate.
Qed.

(* ------------------------------------------------------------------ *)
(** ** The properties at work                                           *)
(* ------------------------------------------------------------------ *)

(** A second rollover at the same moment hands back its argument. *)
Lemma applyAutoSafe_idempotent_witness :
  applyAutoSafe_ref
    (applyAutoSafe (createYearData 2026) (newDateTime 2026 2 15 16 0) 2026)
    (newDateTime 2026 2 15 16 0) 2026
  = ReturnPrev.
Proof.
  exact (proj1 (proj2 (applyAutoSafe_idempotent (createYearData 2026)
                         (newDateTime 2026 2 15 16 0) 2026))).
Defined.

(** The streak on 10 January 2026 at 17:00 with 8, 9 and 10 January safe. *)
Lemma safetyStreak_counts_back_witness :
  supportedYear 2026
  /\ getFullYear (newDateTime 2026 0 10 17 0) = Some 2026
  /\ safetyStreak januaryStreak (newDateTime 2026 0 10 17 0) 2026 = Some 3.
Proof.
  assert (Hy : supportedYear 2026) by (unfold supportedYear; lia).
  split; [exact Hy | split; [reflexivity |]].
  assert (Hnow : newDateTime 2026 0 10 17 0
                 = Some (UTC (MakeDate (MakeDay 2026 0 10) (17 * msPerHour))))
    by reflexivity.
  assert (Hyear : getFullYear (newDateTime 2026 0 10 17 0) = Some 2026) by reflexivity.
  destruct (proj2 (safetyStreak_counts_back januaryStreak
                     (newDateTime 2026 0 10 17 0) 2026)
              (UTC (MakeDate (MakeDay 2026 0 10) (17 * msPerHour)))
              Hy Hnow Hyear) as [_ Hfuel].
  unfold safetyStreak. rewrite (Hfuel 367%nat (le_n 367)). reflexivity.
Defined.

(** Marking 15 March 2026 an accident, and a day 40 that does not exist. *)
Lemma setDayStatus_frame_witness :
  dayAt (setDayStatus 2 15 (Some accident) (createYearData 2026)) 2 14
  = Some {| day := 15; status := Some accident |}
  /\ frame (setDayStatus 2 15 (Some accident) (createYearData 2026))
     = frame (createYearData 2026)
  /\ setDayStatus_ref 2 40 (Some accident) (createYearData 2026) = ReturnPrev.
Proof.
  destruct (setDayStatus_frame 2 15 (Some accident) (createYearData 2026)) as [Hin _].
  destruct (setDayStatus_frame 2 40 (Some accident) (createYearData 2026)) as [_ Hout].
  pose (mm := {| month := 2; year := 2026;
                 days := map (fun i : nat => {| day := Z.of_nat i + 1; status := None |})
                             (seq 0 31) |}).
  assert (Hmm : js_index (createYearData 2026) 2 = Some mm) by reflexivity.
  assert (Hdd : js_index (days mm) (15 - 1) = Some {| day := 15; status := None |})
    by reflexivity.
  assert (Hno : js_index (days mm) (40 - 1) = None) by reflexivity.
  destruct (Hin mm _ Hmm Hdd) as (_ & Hday & _ & Hframe).
  split; [exact Hday | split; [exact Hframe |]].
  apply Hout. right. exists mm. split; assumption.
Defined.

(** The fresh calendar of 2026 is valid; without December, or with another
    year in April, it is not. *)
Lemma createYearData_isValidMonthlyData_witness :
  supportedYear 2026
  /\ isValidMonthlyData (Some (calendarToJson (createYearData 2026))) 2026 = true
  /\ isValidMonthlyData (Some (calendarToJson (take 11 (createYearData 2026)))) 2026
     = false
  /\ isValidMonthlyData
       (Some (calendarToJson
                (<[3%nat := {| month := 3; year := 2025; days := [] |}]>
                   (createYearData 2026)))) 2026
     = false.
Proof.
  assert (Hy : supportedYear 2026) by (unfold supportedYear; lia).
  split; [exact Hy | split; [| split; reflexivity]].
  exact (proj1 (proj2 (proj2 (proj2 (createYearData_isValidMonthlyData 2026 Hy))))).
Defined.

(** Four clicks on 15 March 2026. *)
Lemma cycleDayStatus_four_times_witness :
  statusOf (clickDay 2 15 (createYearData 2026)) (Some 2) (Some 15) = Some safe
  /\ iterate 4 (clickDay 2 15) (createYearData 2026) = createYearData 2026.
Proof.
  destruct (cycleDayStatus_four_times 2 15 (createYearData 2026))
    as (_ & _ & _ & _ & Hone & Hfour).
  split; [| exact Hfour].
  pose (mm := {| month := 2; year := 2026;
                 days := map (fun i : nat => {| day := Z.of_nat i + 1; status := None |})
                             (seq 0 31) |}).
  assert (Hmm : js_index (createYearData 2026) 2 = Some mm) by reflexivity.
  assert (Hdd : js_index (days mm) (15 - 1) = Some {| day := 15; status := None |})
    by reflexivity.
  exact (Hone mm _ Hmm Hdd).
Defined.

(** Loading [corruptAnnouncements] on 15 March 2026 at 10:00. *)
Lemma loaded_valid_calendar_corrupt_announcements_witness :
  isValidMonthlyData (field corruptAnnouncements (js "monthlyData")) 2026 = true
  /\ asArray (field corruptAnnouncements (js "announcements")) = None
  /\ monthlyData (loaded (Parsed corruptAnnouncements) (newDateTime 2026 2 15 10 0) 2026)
     = calendarToJson
         (applyAutoSafe (createYearData 2026) (newDateTime 2026 2 15 10 0) 2026)
  /\ announcements
       (loaded (Parsed corruptAnnouncements) (newDateTime 2026 2 15 10 0) 2026)
     = DEFAULT_ANNOUNCEMENTS
  /\ metrics (loaded (Parsed corruptAnnouncements) (newDateTime 2026 2 15 10 0) 2026)
     = [metric "m1" "First Aid" "2" "case"].
Proof.
  split; [reflexivity | split; [reflexivity |]].
  rewrite (loaded_valid_calendar_corrupt_announcements corruptAnnouncements
             (calendarToJson (createYearData 2026)) (createYearData 2026)
             (newDateTime 2026 2 15 10 0) 2026 (Z2F 120) (Z2F 0));
    try reflexivity.
  repeat split.
Defined.

(** The stored calendar does not come back unchanged: the load rolls it
    over, and on 15 March the days before are safe. *)
Lemma loaded_calendar_is_rolled_over :
  isValidMonthlyData (field corruptAnnouncements (js "monthlyData")) 2026 = true
  /\ asArray (field corruptAnnouncements (js "announcements")) = None
  /\ Some (monthlyData
             (loaded (Parsed corruptAnnouncements) (newDateTime 2026 2 15 10 0) 2026))
     <> field corruptAnnouncements (js "monthlyData").
Proof.
  split; [reflexivity | split; [reflexivity |]].
  intros Heq.
  apply (f_equal (fun v : jsvalue =>
                    match v with
                    | Some (JArr (JObj [_; _; (_, JArr (JObj [_; (_, s)] :: _))] :: _)) =>
                        Some s
                    | _ => None
                    end)) in Heq.
  vm_compute in Heq. discriminate Heq.
Qed.

(** An expression with a semicolon. *)
Lemma safeEval_whitelist_witness :
  (exists c : N, c ∈ js "1; 2" /\ whitelisted c = false)
  /\ safeEval callNewFunction (js "1; 2") [] (standardHost 0)
     = Some (None, standardHost 0).
Proof.
  assert (Hc : exists c : N, c ∈ js "1; 2" /\ whitelisted c = false).
  { exists 59%N. split; [| reflexivity].
    apply list_elem_of_In. vm_compute. right. left. reflexivity. }
  split; [exact Hc |].
  exact (proj1 safeEval_whitelist Host callNewFunction (js "1; 2") [] (standardHost 0) Hc).
Defined.

(** Loading [emptyLists]. *)
Lemma loaded_lists_never_empty_witness :
  field emptyLists (js "announcements") = Some (JArr [])
  /\ field emptyLists (js "metrics") = Some (JArr [])
  /\ announcements (loaded (Parsed emptyLists) (newDateTime 2026 2 15 10 0) 2026)
     = DEFAULT_ANNOUNCEMENTS
  /\ metrics (loaded (Parsed emptyLists) (newDateTime 2026 2 15 10 0) 2026)
     = DEFAULT_METRICS.
Proof.
  destruct (loaded_lists_never_empty (Parsed emptyLists) (newDateTime 2026 2 15 10 0) 2026)
    as (_ & _ & Ha & Hm & _).
  split; [reflexivity | split; [reflexivity | split]].
  - apply (Ha emptyLists); reflexivity.
  - apply (Hm emptyLists); reflexivity.
Defined.
